(** * A one-shot channel over [asyncio.Event]

    Shallow embedding of the two modules of the repository,

    - [aio_sync/oneshot.py]: a shared cell [_SharedState] with a
      [OneShotSender] and a [OneShotReceiver] handle on it, and
    - [aiosync/oneshot.py]: one [OneShot] object with [send], [try_recv]
      and [recv],

    together with the properties their documentation states.

    Python objects are mutable and shared by reference, so the program state
    is a store of objects addressed by locations; a handle is a location.
    A method is a computation in a state-and-exception monad over that store:
    a raised exception does not roll the store back. A payload is any Python
    object: formatting it, as [send] does for its error message, may
    raise. *)

From stdpp Require Import base option list gmap strings.

(** ** Python values and exceptions *)

(** A value of Python type [T | None]. A payload of type [T] is such a value
    too: nothing in the code prevents [T] from admitting [None]. *)
Inductive pyval (T : Type) : Type :=
  | PyNone
  | PyObj (t : T).
Arguments PyNone {T}.
Arguments PyObj {T} t.

(** [v is not None]. *)
Definition is_present {T : Type} (v : pyval T) : bool :=
  match v with
  | PyNone => false
  | PyObj _ => true
  end.

(** What [repr(t)] of a payload object does besides giving text: the class
    of the exception that its [__repr__] raises, if it raises. The repr of
    a number or a string always returns; a user-defined class may raise. *)
Class Repr (T : Type) : Type := repr_raises : T -> option string.

(** The exceptions that come out of the two modules: the [ValueError] that
    [send] builds (the queue of an event raises one too, when asked to
    remove a future it does not hold), the [AssertionError] of an [assert]
    statement, and whatever the [__repr__] of a payload raised while [send]
    was formatting its message (of class [cls]), which is kept apart from
    the first two whatever its class. The message text is not part of the
    model. *)
Inductive exn : Type :=
  | ValueError
  | AssertionError
  | ReprRaised (cls : string).

Inductive result (A : Type) : Type :=
  | Ok (a : A)
  | Raise (e : exn).
Arguments Ok {A} a.
Arguments Raise {A} e.

(** ** The object store and the monad of Python computations *)

Definition loc : Type := nat.

(** [heap] holds the objects of class [O]; [next_fut] is the identity the
    event loop gives to the next future it creates. *)
Record world (O : Type) : Type := World {
  heap : gmap nat O;
  next_fut : nat;
}.
Arguments World {O} heap next_fut.
Arguments heap {O} w.
Arguments next_fut {O} w.

(** [None] is a fault of the model (a location that holds no object), which
    no Python program can cause; [Some (Raise e, w)] is a Python exception
    raised in world [w]. *)
Definition Py (O A : Type) : Type := world O -> option (result A * world O).

(** An attribute of an object of class [O]. *)
Record field (O F : Type) : Type := Field {
  fget : O -> F;
  fset : F -> O -> O;
}.
Arguments Field {O F} fget fset.
Arguments fget {O F} f o.
Arguments fset {O F} f v o.

Section Monad.
Context {O : Type}.

Definition ret {A : Type} (a : A) : Py O A :=
  fun w => Some (Ok a, w).

Definition raise {A : Type} (e : exn) : Py O A :=
  fun w => Some (Raise e, w).

Definition bind {A B : Type} (m : Py O A) (k : A -> Py O B) : Py O B :=
  fun w =>
    match m w with
    | None => None
    | Some (Raise e, w') => Some (Raise e, w')
    | Some (Ok a, w') => k a w'
    end.

(** [O()]: a new object, at a location not in use. *)
Definition alloc (o : O) : Py O loc :=
  fun w =>
    let l := fresh (dom (heap w)) in
    Some (Ok l, World (<[l := o]> (heap w)) (next_fut w)).

(** [obj.f] *)
Definition getattr {F : Type} (l : loc) (f : field O F) : Py O F :=
  fun w =>
    match heap w !! l with
    | Some o => Some (Ok (fget f o), w)
    | None => None
    end.

(** [obj.f = v] *)
Definition setattr {F : Type} (l : loc) (f : field O F) (v : F) : Py O unit :=
  fun w =>
    match heap w !! l with
    | Some o => Some (Ok tt, World (<[l := fset f v o]> (heap w)) (next_fut w))
    | None => None
    end.

(** [loop.create_future()]: a future with a new identity. *)
Definition create_future : Py O nat :=
  fun w => Some (Ok (next_fut w), World (heap w) (S (next_fut w))).

(** [assert b], as Python runs it by default (without [-O], which removes
    assert statements). The message of the two assert statements is a tuple
    that is built without formatting anything. *)
Definition assert (b : bool) : Py O unit :=
  if b then ret tt else raise AssertionError.

(** [repr(v)] of a value of type [T | None], as far as it matters here:
    [None] formats; an object formats unless its [__repr__] raises. *)
Definition repr_pyval {T : Type} {R : Repr T} (v : pyval T) : Py O unit :=
  match v with
  | PyNone => ret tt
  | PyObj t =>
      match repr_raises t with
      | Some cls => raise (ReprRaised cls)
      | None => ret tt
      end
  end.
End Monad.

Notation "'let*' x ':=' m 'in' k" := (bind m (fun x => k))
  (at level 10, x name, m at level 100, k at level 200, only parsing).

(** ** [asyncio.Event]

    The standard library's event, as far as the channel uses it: a flag
    [_value] and the queue [_waiters] of the futures of suspended [wait]
    calls. [clear] is not modelled, the channel never calls it. All calls
    are made within one event loop, the one the event gets bound to. *)
Module Event.
(** A future of the event loop: its identity and whether it is done. *)
Record fut : Type := Fut {
  fut_id : nat;
  fut_done : bool;
}.

Record t : Type := mk {
  _value : bool;
  _waiters : list fut;
}.

(** [Event()] *)
Definition new : t := mk false [].

(** [fut.set_result(True)] unless [fut.done()]. *)
Definition resolve (f : fut) : fut :=
  if fut_done f then f else Fut (fut_id f) true.

(** [self._waiters.remove(fut)]: the first entry with that identity goes;
    [None] when there is none (Python raises [ValueError]). *)
Fixpoint remove (i : nat) (q : list fut) : option (list fut) :=
  match q with
  | [] => None
  | f :: q' =>
      if Nat.eqb (fut_id f) i then Some q'
      else match remove i q' with
           | Some r => Some (f :: r)
           | None => None
           end
  end.

(** Is future [i] in the queue, and done? The event loop resumes a task
    suspended on a future only once that future is done. *)
Definition woken (i : nat) (e : t) : bool :=
  existsb (fun f => Nat.eqb (fut_id f) i && fut_done f) (_waiters e).

(** How a call of a coroutine that awaits the event comes back: with a
    result, or suspended on a future. *)
Inductive poll (A : Type) : Type :=
  | Ready (a : A)
  | Pending (i : nat).
Arguments Ready {A} a.
Arguments Pending {A} i.

Section Methods.
Context {O : Type}.
(** The event is the attribute [ev] of the object at [l]; an object owns
    its event (the dataclass builds it with [default_factory=Event]). *)
Variable l : loc.
Variable ev : field O t.

(** [def is_set(self): return self._value] *)
Definition is_set : Py O bool :=
  let* e := getattr l ev in
  ret (_value e).

(** [def set(self)]: sets the flag and resolves every waiting future,
    unless the flag is set already. *)
Definition set : Py O unit :=
  let* e := getattr l ev in
  if _value e then ret tt
  else
    let* _ := setattr l ev (mk true (_waiters e)) in
    let* e := getattr l ev in
    setattr l ev (mk (_value e) (map resolve (_waiters e))).

(** [async def wait(self)], up to its suspension: returns [True] at once
    when the flag is set, else queues a new future and suspends on it. *)
Definition wait : Py O (poll bool) :=
  let* e := getattr l ev in
  if _value e then ret (Ready true)
  else
    let* i := create_future in
    let* e := getattr l ev in
    let* _ := setattr l ev (mk (_value e) (_waiters e ++ [Fut i false])) in
    ret (Pending i).

(** The rest of [wait], run when the task is resumed on future [i]: the
    [finally] clause takes the future off the queue, then
    [return True]. *)
Definition wait_resume (i : nat) : Py O bool :=
  let* e := getattr l ev in
  match remove i (_waiters e) with
  | Some q => let* _ := setattr l ev (mk (_value e) q) in ret true
  | None => raise ValueError
  end.
End Methods.
End Event.

(** ** Module [aio_sync.oneshot]: a shared cell and two handles *)
Module aio_sync.

(** [class _SharedState[T]]: the wake-up event, the sent flag and the
    value, which is [None] until a value is sent. *)
Module _SharedState.
Record t (T : Type) : Type := mk {
  waker : Event.t;
  sent : bool;
  value : pyval T;
}.
Arguments mk {T} waker sent value.
Arguments waker {T} _.
Arguments sent {T} _.
Arguments value {T} _.

Section Fields.
Context {T : Type}.

(** [_SharedState[T]()]: the defaults of the three fields. *)
Definition new : t T := mk Event.new false PyNone.

Definition waker_ : field (t T) Event.t :=
  Field waker (fun e s => mk e (sent s) (value s)).
Definition sent_ : field (t T) bool :=
  Field sent (fun b s => mk (waker s) b (value s)).
Definition value_ : field (t T) (pyval T) :=
  Field value (fun v s => mk (waker s) (sent s) v).

(** The [__repr__] that [@dataclass] generates: the three fields are
    formatted in turn. The event and the flag always format. *)
Definition __repr__ {R : Repr T} (self : loc) : Py (t T) unit :=
  let* _ := getattr self waker_ in
  let* _ := getattr self sent_ in
  let* v := getattr self value_ in
  repr_pyval v.
End Fields.
End _SharedState.

(** [class OneShotReceiver[T]] *)
Module OneShotReceiver.
Record t (T : Type) : Type := mk { _state : loc }.
Arguments mk {T} _state.
Arguments _state {T} _.

Section Methods.
Context {T : Type}.
Abbreviation Py' := (Py (_SharedState.t T)).

Definition try_recv (self : t T) : Py' (pyval T) :=
  let* b := Event.is_set (_state self) _SharedState.waker_ in
  if b then
    let* s := getattr (_state self) _SharedState.sent_ in
    let* _ := assert s in
    getattr (_state self) _SharedState.value_
  else
    ret PyNone.

(** The body of [recv] after [await self._state.waker.wait()]. *)
Definition recv_after_wait (self : t T) : Py' (pyval T) :=
  let* s := getattr (_state self) _SharedState.sent_ in
  let* _ := assert s in
  getattr (_state self) _SharedState.value_.

(** [async def recv(self)], run until it returns or suspends. *)
Definition recv (self : t T) : Py' (Event.poll (pyval T)) :=
  let* p := Event.wait (_state self) _SharedState.waker_ in
  match p with
  | Event.Ready _ => let* v := recv_after_wait self in ret (Event.Ready v)
  | Event.Pending i => ret (Event.Pending i)
  end.

(** [recv], resumed by the event loop on its future [i]. *)
Definition recv_resume (self : t T) (i : nat) : Py' (pyval T) :=
  let* _ := Event.wait_resume (_state self) _SharedState.waker_ i in
  recv_after_wait self.
End Methods.
End OneShotReceiver.

(** [class OneShotSender[T]] *)
Module OneShotSender.
Record t (T : Type) : Type := mk { _state : loc }.
Arguments mk {T} _state.
Arguments _state {T} _.

Section Methods.
Context {T : Type} {R : Repr T}.
Abbreviation Py' := (Py (_SharedState.t T)).

(** The [__repr__] that [@dataclass] generates: it formats the one field,
    the shared state. *)
Definition __repr__ (self : t T) : Py' unit :=
  _SharedState.__repr__ (_state self).

(** On the second call the message [f"OneShot can only send once, {self}."]
    is formatted first, which calls [repr(self)]; then the error is
    raised. *)
Definition send (self : t T) (value : pyval T) : Py' unit :=
  let* b := Event.is_set (_state self) _SharedState.waker_ in
  if b then
    let* _ := __repr__ self in
    raise ValueError
  else
    let* _ := setattr (_state self) _SharedState.value_ value in
    let* _ := setattr (_state self) _SharedState.sent_ true in
    Event.set (_state self) _SharedState.waker_.
End Methods.
End OneShotSender.

(** [def oneshot_channel[T]()]: one new cell, and a sender and a receiver
    that both refer to it. *)
Definition oneshot_channel {T : Type}
  : Py (_SharedState.t T) (OneShotSender.t T * OneShotReceiver.t T) :=
  let* state := alloc _SharedState.new in
  ret (OneShotSender.mk state, OneShotReceiver.mk state).

(** [class OneShot[T](NamedTuple)] *)
Module OneShot.
Record t (T : Type) : Type := mk {
  sender : OneShotSender.t T;
  receiver : OneShotReceiver.t T;
}.
Arguments mk {T} sender receiver.
Arguments sender {T} _.
Arguments receiver {T} _.

(** [OneShot[T].channel()] *)
Definition channel {T : Type} : Py (_SharedState.t T) (t T) :=
  let* p := oneshot_channel in
  ret (mk (fst p) (snd p)).
End OneShot.
End aio_sync.

(** ** Module [aiosync.oneshot]: one object *)
Module aiosync.

(** [class OneShot[T]] *)
Module OneShot.
Record t (T : Type) : Type := mk {
  _waker : Event.t;
  _sent : bool;
  _value : pyval T;
}.
Arguments mk {T} _waker _sent _value.
Arguments _waker {T} _.
Arguments _sent {T} _.
Arguments _value {T} _.

Section Methods.
Context {T : Type} {R : Repr T}.
Abbreviation Py' := (Py (t T)).

(** The defaults of the three fields. *)
Definition init : t T := mk Event.new false PyNone.

Definition _waker_ : field (t T) Event.t :=
  Field _waker (fun e s => mk e (_sent s) (_value s)).
Definition _sent_ : field (t T) bool :=
  Field _sent (fun b s => mk (_waker s) b (_value s)).
Definition _value_ : field (t T) (pyval T) :=
  Field _value (fun v s => mk (_waker s) (_sent s) v).

(** [OneShot[T]()]; the handle is the location of the new object. *)
Definition new : Py' loc := alloc init.

(** The [__repr__] that [@dataclass] generates: the three fields, all
    declared with [repr=True], are formatted in turn. *)
Definition __repr__ (self : loc) : Py' unit :=
  let* _ := getattr self _waker_ in
  let* _ := getattr self _sent_ in
  let* v := getattr self _value_ in
  repr_pyval v.

(** On the second call the message [f"OneShot can only send once, {self=}."]
    is formatted first, which calls [repr(self)]; then the error is
    raised. *)
Definition send (self : loc) (value : pyval T) : Py' unit :=
  let* b := Event.is_set self _waker_ in
  if b then
    let* _ := __repr__ self in
    raise ValueError
  else
    let* _ := setattr self _value_ value in
    let* _ := setattr self _sent_ true in
    Event.set self _waker_.

Definition try_recv (self : loc) : Py' (pyval T) :=
  let* b := Event.is_set self _waker_ in
  if b then
    let* s := getattr self _sent_ in
    let* _ := assert s in
    getattr self _value_
  else
    ret PyNone.

(** The body of [recv] after [await self._waker.wait()]. *)
Definition recv_after_wait (self : loc) : Py' (pyval T) :=
  let* s := getattr self _sent_ in
  let* _ := assert s in
  getattr self _value_.

(** [async def recv(self)], run until it returns or suspends. *)
Definition recv (self : loc) : Py' (Event.poll (pyval T)) :=
  let* p := Event.wait self _waker_ in
  match p with
  | Event.Ready _ => let* v := recv_after_wait self in ret (Event.Ready v)
  | Event.Pending i => ret (Event.Pending i)
  end.

(** [recv], resumed by the event loop on its future [i]. *)
Definition recv_resume (self : loc) (i : nat) : Py' (pyval T) :=
  let* _ := Event.wait_resume self _waker_ i in
  recv_after_wait self.
End Methods.
End OneShot.
End aiosync.

(** ** Sequences of calls on one channel *)

(** A call on the channel by some task, or the event loop resuming the
    [recv] call that is suspended on future [i]. *)
Inductive op (T : Type) : Type :=
  | Send (v : pyval T)
  | TryRecv
  | Recv
  | Resume (i : nat).
Arguments Send {T} v.
Arguments TryRecv {T}.
Arguments Recv {T}.
Arguments Resume {T} i.

(** What the caller sees: the value returned ([send] returns [None]), the
    exception raised, the suspension of [recv] on a future, or nothing to
    resume. *)
Inductive outcome (T : Type) : Type :=
  | Returned (v : pyval T)
  | Raised (e : exn)
  | Suspended (i : nat)
  | Idle.
Arguments Returned {T} v.
Arguments Raised {T} e.
Arguments Suspended {T} i.
Arguments Idle {T}.

(** The methods of one channel, bound to its handles. *)
Record api (O T : Type) : Type := Api {
  call_send : pyval T -> Py O unit;
  call_try_recv : Py O (pyval T);
  call_recv : Py O (Event.poll (pyval T));
  call_recv_resume : nat -> Py O (pyval T);
  call_waker : Py O Event.t;
}.
Arguments Api {O T} _ _ _ _ _.
Arguments call_send {O T} _ _.
Arguments call_try_recv {O T} _.
Arguments call_recv {O T} _.
Arguments call_recv_resume {O T} _ _.
Arguments call_waker {O T} _.

Definition aio_sync_api {T : Type} {R : Repr T} (ch : aio_sync.OneShot.t T)
  : api (aio_sync._SharedState.t T) T :=
  let tx := aio_sync.OneShot.sender ch in
  let rx := aio_sync.OneShot.receiver ch in
  Api (aio_sync.OneShotSender.send tx)
      (aio_sync.OneShotReceiver.try_recv rx)
      (aio_sync.OneShotReceiver.recv rx)
      (aio_sync.OneShotReceiver.recv_resume rx)
      (getattr (aio_sync.OneShotReceiver._state rx) aio_sync._SharedState.waker_).

Definition aiosync_api {T : Type} {R : Repr T} (self : loc)
  : api (aiosync.OneShot.t T) T :=
  Api (aiosync.OneShot.send self)
      (aiosync.OneShot.try_recv self)
      (aiosync.OneShot.recv self)
      (aiosync.OneShot.recv_resume self)
      (getattr self aiosync.OneShot._waker_).

Section Run.
Context {O T : Type}.
Variable a : api O T.

Definition perform (o : op T) : Py O (outcome T) :=
  match o with
  | Send v =>
      let* _ := call_send a v in
      ret (Returned PyNone)
  | TryRecv =>
      let* v := call_try_recv a in
      ret (Returned v)
  | Recv =>
      let* p := call_recv a in
      ret (match p with
           | Event.Ready v => Returned v
           | Event.Pending i => Suspended i
           end)
  | Resume i =>
      let* e := call_waker a in
      if Event.woken i e then
        let* v := call_recv_resume a i in
        ret (Returned v)
      else
        ret Idle
  end.

(** The caller catches what a call raises, records it, and goes on. *)
Definition attempt (o : op T) : Py O (outcome T) :=
  fun w =>
    match perform o w with
    | None => None
    | Some (Ok r, w') => Some (Ok r, w')
    | Some (Raise e, w') => Some (Ok (Raised e), w')
    end.

Fixpoint run (ops : list (op T)) : Py O (list (outcome T)) :=
  match ops with
  | [] => ret []
  | o :: ops' =>
      let* r := attempt o in
      let* rs := run ops' in
      ret (r :: rs)
  end.
End Run.

(** The part of a cell that the documentation speaks of: whether the wake
    signal is set, the sent flag, and the value. *)
Definition triple (T : Type) : Type := (bool * bool * pyval T)%type.

(** One module of the repository, seen from a caller: how a channel is made,
    its methods, and (for stating properties only) the event, the flag and
    the value that the receiving side of a handle refers to in a world. *)
Record oneshot_module (T : Type) : Type := OneShotModule {
  obj : Type;
  handle : Type;
  create : Py obj handle;
  methods : handle -> api obj T;
  peek : handle -> world obj -> option (Event.t * bool * pyval T);
}.
Arguments OneShotModule {T} obj handle create methods peek.
Arguments obj {T} _.
Arguments handle {T} _.
Arguments create {T} _.
Arguments methods {T} _ _.
Arguments peek {T} _ _ _.

Definition aio_sync_module (T : Type) {R : Repr T} : oneshot_module T :=
  OneShotModule (aio_sync._SharedState.t T) (aio_sync.OneShot.t T)
    aio_sync.OneShot.channel
    aio_sync_api
    (fun ch w =>
       match heap w !! aio_sync.OneShotReceiver._state (aio_sync.OneShot.receiver ch) with
       | Some st =>
           Some (aio_sync._SharedState.waker st,
                 aio_sync._SharedState.sent st,
                 aio_sync._SharedState.value st)
       | None => None
       end).

Definition aiosync_module (T : Type) {R : Repr T} : oneshot_module T :=
  OneShotModule (aiosync.OneShot.t T) loc
    aiosync.OneShot.new
    aiosync_api
    (fun self w =>
       match heap w !! self with
       | Some o =>
           Some (aiosync.OneShot._waker o,
                 aiosync.OneShot._sent o,
                 aiosync.OneShot._value o)
       | None => None
       end).

Section Session.
Context {T : Type}.
Variable M : oneshot_module T.

(** A new channel, then the calls [ops] on it: the handle and what each
    call gave. *)
Definition session (ops : list (op T))
  : Py (obj M) (handle M * list (outcome T)) :=
  let* ch := create M in
  let* rs := run (methods M ch) ops in
  ret (ch, rs).

(** The signal, the flag and the value that [ch] refers to in [w]. *)
Definition observe (ch : handle M) (w : world (obj M)) : option (triple T) :=
  match peek M ch w with
  | Some (e, s, v) => Some (Event._value e, s, v)
  | None => None
  end.
End Session.

(** A statement about the repository is one about both of its modules. *)
Definition both_modules {T : Type} {R : Repr T}
  (P : oneshot_module T -> Prop) : Prop :=
  P (aio_sync_module T) /\ P (aiosync_module T).

(** The payload of the first [send] among [ops], if there is one. *)
Fixpoint first_sent {T : Type} (ops : list (op T)) : option (pyval T) :=
  match ops with
  | [] => None
  | Send v :: _ => Some v
  | _ :: ops' => first_sent ops'
  end.

(** The world of a newly started interpreter. *)
Definition boot {O : Type} : world O := World ∅ 0.

(** The exception that a [send] on a channel already sent on raises, given
    the stored value: the [ValueError] it builds, unless formatting the
    message raised first. *)
Definition already_sent_error {T : Type} {R : Repr T} (v : pyval T) : exn :=
  match v with
  | PyNone => ValueError
  | PyObj t =>
      match repr_raises t with
      | Some cls => ReprRaised cls
      | None => ValueError
      end
  end.

(** The repr of a number always returns. *)
#[global] Instance nat_repr : Repr nat := fun _ => None.

(** A payload class whose [__repr__] raises [RuntimeError]. *)
Inductive unprintable : Type := Unprintable.

#[global] Instance unprintable_repr : Repr unprintable :=
  fun _ => Some "RuntimeError"%string.

(** ** A reference machine

    One cell on its own, without store or handles: what each call does to
    the event, the flag and the value, and what it gives back. It is read off
    the methods above and is used in the proofs only; lemmas below show that
    both modules run like it on the cell their handles refer to. *)
Module Cell.
Record t (T : Type) : Type := mk {
  waker : Event.t;
  sent : bool;
  value : pyval T;
}.
Arguments mk {T} waker sent value.
Arguments waker {T} _.
Arguments sent {T} _.
Arguments value {T} _.

Section Machine.
Context {T : Type} {R : Repr T}.

Definition new : t T := mk Event.new false PyNone.

Definition is_set (c : t T) : bool := Event._value (waker c).
Definition waiters (c : t T) : list Event.fut := Event._waiters (waker c).

Definition send (v : pyval T) (c : t T) : result unit * t T :=
  if is_set c then (Raise (already_sent_error (value c)), c)
  else (Ok tt, mk (Event.mk true (map Event.resolve (waiters c))) true v).

Definition after_wait (c : t T) : result (pyval T) :=
  if sent c then Ok (value c) else Raise AssertionError.

Definition try_recv (c : t T) : result (pyval T) :=
  if is_set c then after_wait c else Ok PyNone.

Definition recv (c : t T) (n : nat)
  : result (Event.poll (pyval T)) * t T * nat :=
  if is_set c then
    (match after_wait c with
     | Ok v => Ok (Event.Ready v)
     | Raise e => Raise e
     end, c, n)
  else
    (Ok (Event.Pending n),
     mk (Event.mk false (waiters c ++ [Event.Fut n false])) (sent c) (value c),
     S n).

Definition recv_resume (i : nat) (c : t T) : result (pyval T) * t T :=
  match Event.remove i (waiters c) with
  | Some q =>
      let c' := mk (Event.mk (is_set c) q) (sent c) (value c) in
      (after_wait c', c')
  | None => (Raise ValueError, c)
  end.

Definition perform (o : op T) (c : t T) (n : nat)
  : result (outcome T) * t T * nat :=
  match o with
  | Send v =>
      match send v c with
      | (Ok _, c') => (Ok (Returned PyNone), c', n)
      | (Raise e, c') => (Raise e, c', n)
      end
  | TryRecv =>
      match try_recv c with
      | Ok v => (Ok (Returned v), c, n)
      | Raise e => (Raise e, c, n)
      end
  | Recv =>
      match recv c n with
      | (Ok (Event.Ready v), c', n') => (Ok (Returned v), c', n')
      | (Ok (Event.Pending i), c', n') => (Ok (Suspended i), c', n')
      | (Raise e, c', n') => (Raise e, c', n')
      end
  | Resume i =>
      if Event.woken i (waker c) then
        match recv_resume i c with
        | (Ok v, c') => (Ok (Returned v), c', n)
        | (Raise e, c') => (Raise e, c', n)
        end
      else (Ok Idle, c, n)
  end.

Definition attempt (o : op T) (c : t T) (n : nat) : outcome T * t T * nat :=
  match perform o c n with
  | (Ok r, c', n') => (r, c', n')
  | (Raise e, c', n') => (Raised e, c', n')
  end.

Fixpoint run (ops : list (op T)) (c : t T) (n : nat)
  : list (outcome T) * t T * nat :=
  match ops with
  | [] => ([], c, n)
  | o :: ops' =>
      let '(r, c', n') := attempt o c n in
      let '(rs, c'', n'') := run ops' c' n' in
      (r :: rs, c'', n'')
  end.
End Machine.
End Cell.

(** ** Definitions used in the statements and proofs *)

(** The object at [l] replaced by [o]. *)
Definition put {O : Type} (l : loc) (o : O) (w : world O) : world O :=
  World (<[l := o]> (heap w)) (next_fut w).

(** The payload that a call sends, if it is a [send]. *)
Definition sent_by {T : Type} (o : op T) : option (pyval T) :=
  match o with
  | Send v => Some v
  | _ => None
  end.

Definition is_send {T : Type} (o : op T) : bool :=
  match o with
  | Send _ => true
  | _ => false
  end.

Definition or_else {A : Type} (p q : option A) : option A :=
  match p with
  | Some _ => p
  | None => q
  end.

(** The object of each module as a cell of the reference machine. *)
Definition aio_sync_view {T : Type} (st : aio_sync._SharedState.t T) : Cell.t T :=
  Cell.mk (aio_sync._SharedState.waker st) (aio_sync._SharedState.sent st)
    (aio_sync._SharedState.value st).

Definition aiosync_view {T : Type} (o : aiosync.OneShot.t T) : Cell.t T :=
  Cell.mk (aiosync.OneShot._waker o) (aiosync.OneShot._sent o)
    (aiosync.OneShot._value o).

(** The cell that the receiver of an [aio_sync] channel refers to, and
    whether its sender refers to the same one. *)
Definition aio_sync_loc {T : Type} (ch : aio_sync.OneShot.t T) : loc :=
  aio_sync.OneShotReceiver._state (aio_sync.OneShot.receiver ch).

Definition aio_sync_paired {T : Type} (ch : aio_sync.OneShot.t T) : Prop :=
  aio_sync.OneShotSender._state (aio_sync.OneShot.sender ch)
  = aio_sync.OneShotReceiver._state (aio_sync.OneShot.receiver ch).

(** A cell whose history is summed up by [p], the payload of the send that
    succeeded, if one did: before it the signal is unset, the flag false,
    the value [None] and no waiting future is done; after it the signal is
    set, the flag true and the value is that payload. *)
Definition cell_ok {T : Type} (p : option (pyval T)) (c : Cell.t T) : Prop :=
  match p with
  | None =>
      Cell.is_set c = false /\ Cell.sent c = false /\ Cell.value c = PyNone
      /\ Forall (fun f => Event.fut_done f = false) (Cell.waiters c)
  | Some v =>
      Cell.is_set c = true /\ Cell.sent c = true /\ Cell.value c = v
  end.

(** The signal, the flag and the value of a cell. *)
Definition cell_triple {T : Type} (c : Cell.t T) : triple T :=
  (Cell.is_set c, Cell.sent c, Cell.value c).

(** Module [M] runs like the reference machine: [peek] reads the cell at the
    location of the handle, [create] puts a new cell at an unused location,
    and each method does to that cell what the machine does. *)
Record refines {T : Type} {R : Repr T} (M : oneshot_module T)
  (loc_of : handle M -> loc) (view : obj M -> Cell.t T)
  (paired : handle M -> Prop) : Prop := Refines {
  peek_view : forall h w,
    peek M h w
    = (fun o => (Cell.waker (view o), Cell.sent (view o), Cell.value (view o)))
        <$> (heap w !! loc_of h);
  view_inj : forall o o', view o = view o' -> o = o';
  create_new : forall w,
    exists h o,
      create M w = Some (Ok h, put (loc_of h) o w)
      /\ view o = Cell.new /\ paired h /\ heap w !! loc_of h = None;
  send_cell : forall h v w st,
    paired h ->
    heap w !! loc_of h = Some st ->
    exists st',
      call_send (methods M h) v w
      = Some ((Cell.send v (view st)).1, put (loc_of h) st' w)
      /\ view st' = (Cell.send v (view st)).2;
  try_recv_cell : forall h w st,
    heap w !! loc_of h = Some st ->
    call_try_recv (methods M h) w = Some (Cell.try_recv (view st), w);
  recv_cell : forall h w st,
    heap w !! loc_of h = Some st ->
    exists st',
      call_recv (methods M h) w
      = Some ((Cell.recv (view st) (next_fut w)).1.1,
              World (<[loc_of h := st']> (heap w))
                    (Cell.recv (view st) (next_fut w)).2)
      /\ view st' = (Cell.recv (view st) (next_fut w)).1.2;
  recv_resume_cell : forall h i w st,
    heap w !! loc_of h = Some st ->
    exists st',
      call_recv_resume (methods M h) i w
      = Some ((Cell.recv_resume i (view st)).1, put (loc_of h) st' w)
      /\ view st' = (Cell.recv_resume i (view st)).2;
  waker_cell : forall h w st,
    heap w !! loc_of h = Some st ->
    call_waker (methods M h) w = Some (Ok (Cell.waker (view st)), w);
}.

(** The invariant as the documentation words it: the signal is set exactly
    when the flag is true and the value is present. *)
Definition signal_iff_sent_and_present {T : Type} (t : triple T) : Prop :=
  t.1.1 = true <-> (t.1.2 = true /\ is_present t.2 = true).

(** The outcomes of a session, without the handle. *)
Definition outcomes {T : Type} (M : oneshot_module T) (ops : list (op T))
  (w : world (obj M)) : option (result (list (outcome T))) :=
  match session M ops w with
  | Some (Ok (_, rs), _) => Some (Ok rs)
  | Some (Raise e, _) => Some (Raise e)
  | None => None
  end.

Ltac py_unfold :=
  unfold aio_sync.OneShotSender.send, aio_sync.OneShotReceiver.try_recv,
    aio_sync.OneShotReceiver.recv, aio_sync.OneShotReceiver.recv_resume,
    aio_sync.OneShotReceiver.recv_after_wait,
    aiosync.OneShot.send, aiosync.OneShot.try_recv, aiosync.OneShot.recv,
    aiosync.OneShot.recv_resume, aiosync.OneShot.recv_after_wait,
    aio_sync.OneShotSender.__repr__, aio_sync._SharedState.__repr__,
    aiosync.OneShot.__repr__, repr_pyval, already_sent_error,
    Event.is_set, Event.set, Event.wait, Event.wait_resume,
    bind, getattr, setattr, create_future, assert, ret, raise.

(** Runs a method on a world whose cell is known by [H]. *)
Ltac py_exec H :=
  cbn; py_unfold; cbn;
  repeat (progress (rewrite ?H, ?lookup_insert_eq, ?insert_insert_eq; cbn)).

Ltac py_done H :=
  first
    [ eexists; split; [reflexivity | reflexivity]
    | eexists; split; [by rewrite (insert_id _ _ _ H) | reflexivity] ].

(** Opens a cell and the steps of the reference machine. *)
Ltac cell_open c H :=
  destruct c as [[? ?] ? ?];
  unfold cell_ok, Cell.is_set, Cell.waiters in H; cbn in H;
  unfold Cell.attempt, Cell.perform, Cell.send, Cell.try_recv, Cell.recv,
    Cell.recv_resume, Cell.after_wait, cell_triple, Cell.is_set, Cell.waiters;
  cbn.

(** ** Definitions for the further properties *)

(** Every waiting future of the cell is done exactly when the signal is
    set. *)
Definition cell_dones_ok {T : Type} (c : Cell.t T) : Prop :=
  Forall (fun f => Event.fut_done f = Cell.is_set c) (Cell.waiters c).

(** Future [i] is in the queue of the cell. *)
Definition cell_waits {T : Type} (i : nat) (c : Cell.t T) : Prop :=
  i ∈ Event.fut_id <$> Cell.waiters c.

Section Run2.
Context {O T : Type}.
Variables a b : api O T.

(** Calls on two channels, in any order: [true] marks a call on the first
    channel, [false] one on the second. *)
Fixpoint run2 (ops : list (bool * op T)) : Py O (list (outcome T)) :=
  match ops with
  | [] => ret []
  | (side, o) :: ops' =>
      let* r := attempt (if side then a else b) o in
      let* rs := run2 ops' in
      ret (r :: rs)
  end.
End Run2.

(** The calls made on one of the two channels. *)
Fixpoint calls_on {T : Type} (side : bool) (ops : list (bool * op T))
  : list (op T) :=
  match ops with
  | [] => []
  | (s, o) :: ops' =>
      if Bool.eqb s side then o :: calls_on side ops' else calls_on side ops'
  end.

(** Two new channels of one module, then calls on them in any order. *)
Definition two_sessions {T : Type} (M : oneshot_module T)
  (ops : list (bool * op T))
  : Py (obj M) (handle M * handle M * list (outcome T)) :=
  let* a := create M in
  let* b := create M in
  let* rs := run2 (methods M a) (methods M b) ops in
  ret (a, b, rs).

(** * Proofs *)

(** ** Running the primitives *)

Section MonadFacts.
Context {O : Type}.
Implicit Types (w : world O) (l : loc).

Lemma bind_ok {A B} (m : Py O A) (k : A -> Py O B) w a w' :
  m w = Some (Ok a, w') -> bind m k w = k a w'.
Proof. unfold bind. by intros ->. Qed.

Lemma alloc_fresh (o : O) w :
  exists l, alloc o w = Some (Ok l, put l o w) /\ heap w !! l = None.
Proof.
  exists (fresh (dom (heap w))). split; [reflexivity|].
  apply not_elem_of_dom, is_fresh.
Qed.

Lemma heap_put l o w : heap (put l o w) !! l = Some o.
Proof. apply lookup_insert_eq. Qed.

Lemma put_same l o w : heap w !! l = Some o -> put l o w = w.
Proof. intros H. destruct w as [h n]. unfold put. cbn in *. by rewrite insert_id. Qed.
End MonadFacts.

(** ** Both modules run like the reference machine *)

Section Modules.
Context {T : Type} {R : Repr T}.

Lemma aio_sync_refines :
  refines (aio_sync_module T) aio_sync_loc aio_sync_view aio_sync_paired.
Proof.
  split.
  - intros h w. cbn. unfold aio_sync_loc. by case_match.
  - by intros [? ? ?] [? ? ?] [= -> -> ->].
  - intros w.
    destruct (alloc_fresh (aio_sync._SharedState.new (T:=T)) w) as (l & E & Hl).
    eexists (aio_sync.OneShot.mk (aio_sync.OneShotSender.mk l)
               (aio_sync.OneShotReceiver.mk l)), _.
    unfold create, aio_sync_module, aio_sync.OneShot.channel,
      aio_sync.oneshot_channel, bind.
    rewrite E. done.
  - intros [[ls] [lr]] v [h n] [[b q] s v0] Hp H.
    unfold aio_sync_paired, aio_sync_loc, put, Cell.send in *.
    cbn in Hp, H |- *. subst ls.
    destruct b; [destruct v0 as [|t]|]; py_exec H;
      try (destruct (repr_raises t); py_exec H); py_done H.
  - intros [[ls] [lr]] [h n] [[b q] s v0] H.
    unfold aio_sync_loc, Cell.try_recv, Cell.after_wait in *. cbn in H |- *.
    by destruct b, s; py_exec H.
  - intros [[ls] [lr]] [h n] [[b q] s v0] H.
    unfold aio_sync_loc, Cell.recv, Cell.after_wait in *. cbn in H |- *.
    destruct b, s; py_exec H; py_done H.
  - intros [[ls] [lr]] i [h n] [[b q] s v0] H.
    unfold aio_sync_loc, put, Cell.recv_resume, Cell.after_wait, Cell.waiters in *.
    cbn in H |- *. py_exec H.
    destruct (Event.remove i q); py_exec H; [|py_done H].
    destruct s; py_exec H; py_done H.
  - intros [[ls] [lr]] [h n] [[b q] s v0] H.
    unfold aio_sync_loc in *. cbn in H |- *. by py_exec H.
Qed.

Lemma aiosync_refines :
  refines (aiosync_module T) (fun l => l) aiosync_view (fun _ => True).
Proof.
  split.
  - intros h w. cbn. by case_match.
  - by intros [? ? ?] [? ? ?] [= -> -> ->].
  - intros w.
    destruct (alloc_fresh (aiosync.OneShot.init (T:=T)) w) as (l & E & Hl).
    exists l, aiosync.OneShot.init.
    unfold create, aiosync_module, aiosync.OneShot.new. by rewrite E.
  - intros l v [h n] [[b q] s v0] _ H. unfold put, Cell.send in *.
    cbn in H |- *.
    destruct b; [destruct v0 as [|t]|]; py_exec H;
      try (destruct (repr_raises t); py_exec H); py_done H.
  - intros l [h n] [[b q] s v0] H.
    unfold Cell.try_recv, Cell.after_wait in *. cbn in H |- *.
    by destruct b, s; py_exec H.
  - intros l [h n] [[b q] s v0] H.
    unfold Cell.recv, Cell.after_wait in *. cbn in H |- *.
    destruct b, s; py_exec H; py_done H.
  - intros l i [h n] [[b q] s v0] H.
    unfold put, Cell.recv_resume, Cell.after_wait, Cell.waiters in *.
    cbn in H |- *. py_exec H.
    destruct (Event.remove i q); py_exec H; [|py_done H].
    destruct s; py_exec H; py_done H.
  - intros l [h n] [[b q] s v0] H. cbn in H |- *. by py_exec H.
Qed.
End Modules.

(** ** The reference machine *)

Section CellFacts.
Context {T : Type} {R : Repr T}.
Implicit Types (c : Cell.t T) (p : option (pyval T)) (o : op T) (n i : nat).

Lemma woken_not_done i (q : list Event.fut) :
  Forall (fun f => Event.fut_done f = false) q ->
  existsb (fun f => Nat.eqb (Event.fut_id f) i && Event.fut_done f) q = false.
Proof.
  induction 1 as [|f q Hf _ IH]; [done|].
  cbn. by rewrite Hf, andb_false_r, IH.
Qed.

Lemma remove_woken i (q : list Event.fut) :
  existsb (fun f => Nat.eqb (Event.fut_id f) i && Event.fut_done f) q = true ->
  is_Some (Event.remove i q).
Proof.
  induction q as [|f q IH]; cbn; [done|].
  destruct (Nat.eqb (Event.fut_id f) i); cbn; [by eexists|].
  intros H. destruct (IH H) as [q' ->]. by eexists.
Qed.

Lemma cell_ok_new : cell_ok None (Cell.new (T:=T)).
Proof. repeat split. constructor. Qed.

Lemma attempt_send_new v c n :
  cell_ok None c ->
  exists c', Cell.attempt (Send v) c n = (Returned PyNone, c', n)
    /\ cell_ok (Some v) c'.
Proof.
  intros H. cell_open c H. destruct H as (-> & -> & -> & _).
  eexists. split; [reflexivity|]. by repeat split.
Qed.

Lemma attempt_send_again v v0 c n :
  cell_ok (Some v0) c ->
  Cell.attempt (Send v) c n = (Raised (already_sent_error v0), c, n).
Proof. intros H. cell_open c H. by destruct H as (-> & -> & ->). Qed.

Lemma attempt_try_recv p c n :
  cell_ok p c ->
  Cell.attempt TryRecv c n = (Returned (default PyNone p), c, n).
Proof.
  intros H. destruct p; cell_open c H.
  - by destruct H as (-> & -> & ->).
  - by destruct H as (-> & -> & -> & _).
Qed.

Lemma attempt_recv_set v c n :
  cell_ok (Some v) c ->
  Cell.attempt Recv c n = (Returned v, c, n).
Proof. intros H. cell_open c H. by destruct H as (-> & -> & ->). Qed.

Lemma attempt_recv_unset c n :
  cell_ok None c ->
  exists c', Cell.attempt Recv c n = (Suspended n, c', S n)
    /\ cell_ok None c' /\ cell_triple c' = cell_triple c.
Proof.
  intros H. cell_open c H. destruct H as (-> & -> & -> & Hq).
  eexists. split; [reflexivity|]. split; [|done].
  repeat split. cbn. apply Forall_app. split; [done|]. by repeat constructor.
Qed.

Lemma attempt_resume p i c n :
  cell_ok p c ->
  exists r c', Cell.attempt (Resume i) c n = (r, c', n)
    /\ cell_ok p c' /\ cell_triple c' = cell_triple c
    /\ (r = Idle \/ exists v, p = Some v /\ r = Returned v).
Proof.
  intros H. destruct p as [v|]; cell_open c H.
  - destruct H as (-> & -> & ->).
    destruct (existsb _ _) eqn:E; [|by eauto 10].
    destruct (remove_woken _ _ E) as [q' ->]. cbn.
    do 2 eexists. split; [reflexivity|]. eauto 10.
  - destruct H as (-> & -> & -> & Hq).
    rewrite (woken_not_done _ _ Hq). do 2 eexists. split; [reflexivity|].
    repeat split; eauto.
Qed.

(** A call leaves the cell in order, its history extended by the call. *)
Lemma attempt_ok p o c n :
  cell_ok p c -> cell_ok (or_else p (sent_by o)) (Cell.attempt o c n).1.2.
Proof.
  intros H. destruct o as [v| | |i].
  - destruct p as [v0|]; cbn.
    + by rewrite (attempt_send_again _ _ _ _ H).
    + by destruct (attempt_send_new v _ n H) as (c' & -> & ?).
  - rewrite (attempt_try_recv _ _ _ H). by destruct p.
  - destruct p as [v0|]; cbn.
    + by rewrite (attempt_recv_set _ _ _ H).
    + by destruct (attempt_recv_unset _ n H) as (c' & -> & ? & _).
  - destruct (attempt_resume _ i _ n H) as (r & c' & -> & ? & _). by destruct p.
Qed.

Lemma already_sent_error_not_assertion (v : pyval T) :
  already_sent_error v <> AssertionError.
Proof.
  unfold already_sent_error. destruct v as [|t]; [done|].
  by destruct (repr_raises t).
Qed.

(** The assertion of [try_recv] and [recv] holds in a cell in order. *)
Lemma attempt_no_assert p o c n :
  cell_ok p c -> (Cell.attempt o c n).1.1 <> Raised AssertionError.
Proof.
  intros H. destruct o as [v| | |i].
  - destruct p as [v0|].
    + rewrite (attempt_send_again _ _ _ _ H). cbn. intros [= E].
      by apply already_sent_error_not_assertion in E.
    + by destruct (attempt_send_new v _ n H) as (c' & -> & ?).
  - by rewrite (attempt_try_recv _ _ _ H).
  - destruct p as [v0|].
    + by rewrite (attempt_recv_set _ _ _ H).
    + by destruct (attempt_recv_unset _ n H) as (c' & -> & ? & _).
  - destruct (attempt_resume _ i _ n H) as (r & c' & -> & _ & _ & [->|(v & _ & ->)]);
      done.
Qed.

(** Whatever the cell, only [send] changes the signal, the flag or the
    value. *)
Lemma attempt_frame o c n :
  is_send o = false ->
  cell_triple (Cell.attempt o c n).1.2 = cell_triple c.
Proof.
  intros Ho. destruct c as [[b q] s v].
  unfold Cell.attempt, Cell.perform, Cell.try_recv, Cell.recv,
    Cell.recv_resume, Cell.after_wait, cell_triple, Cell.is_set, Cell.waiters.
  destruct o as [v'| | |i]; [done| | |]; cbn.
  - by destruct b, s.
  - by destruct b, s.
  - destruct (existsb _ q); [|done]. cbn.
    destruct (Event.remove i q); [|done]. cbn. by destruct s.
Qed.

Lemma first_sent_cons o (ops : list (op T)) :
  first_sent (o :: ops) = or_else (sent_by o) (first_sent ops).
Proof. by destruct o. Qed.

Lemma or_else_assoc {A} (p q r : option A) :
  or_else (or_else p q) r = or_else p (or_else q r).
Proof. by destruct p. Qed.

Lemma run_cons o ops c n :
  Cell.run (o :: ops) c n
  = ((Cell.attempt o c n).1.1
       :: (Cell.run ops (Cell.attempt o c n).1.2 (Cell.attempt o c n).2).1.1,
     (Cell.run ops (Cell.attempt o c n).1.2 (Cell.attempt o c n).2).1.2,
     (Cell.run ops (Cell.attempt o c n).1.2 (Cell.attempt o c n).2).2).
Proof.
  cbn. destruct (Cell.attempt o c n) as [[r c'] n']. cbn.
  by destruct (Cell.run ops c' n') as [[rs c''] n''].
Qed.

Lemma run_ok p ops c n :
  cell_ok p c -> cell_ok (or_else p (first_sent ops)) (Cell.run ops c n).1.2.
Proof.
  revert p c n. induction ops as [|o ops IH]; intros p c n H.
  - cbn. by destruct p.
  - rewrite run_cons, first_sent_cons, <- or_else_assoc. cbn.
    apply IH. by apply attempt_ok.
Qed.

Lemma run_no_assert p ops c n :
  cell_ok p c ->
  Forall (fun r => r <> Raised AssertionError) (Cell.run ops c n).1.1.
Proof.
  revert p c n. induction ops as [|o ops IH]; intros p c n H.
  - constructor.
  - rewrite run_cons. cbn. constructor.
    + by eapply attempt_no_assert.
    + eapply IH. by apply attempt_ok.
Qed.

(** The first [send] of a sequence run on an unsent cell succeeds. *)
Lemma run_first_send ops v1 c n :
  cell_ok None c ->
  first_sent ops = Some v1 ->
  exists k, ops !! k = Some (Send v1)
    /\ (Cell.run ops c n).1.1 !! k = Some (Returned PyNone).
Proof.
  revert c n. induction ops as [|o ops IH]; intros c n H Hf; [done|].
  rewrite run_cons. cbn [fst snd]. rewrite first_sent_cons in Hf.
  destruct (sent_by o) as [v|] eqn:Ho.
  - destruct o; try done. injection Ho as ->. injection Hf as ->.
    exists 0. split; [done|]. cbn.
    by destruct (attempt_send_new v1 _ n H) as (c' & -> & ?).
  - cbn in Hf. pose proof (attempt_ok _ o _ n H) as H'. rewrite Ho in H'.
    destruct (IH _ (Cell.attempt o c n).2 H' Hf) as (k & ? & ?).
    by exists (S k).
Qed.
End CellFacts.

(** ** Sessions on a module that runs like the reference machine *)

Section Sessions.
Context {T : Type} {R : Repr T} (M : oneshot_module T).
Context (loc_of : handle M -> loc) (view : obj M -> Cell.t T).
Context (paired : handle M -> Prop).
Hypothesis HR : refines M loc_of view paired.
Implicit Types (h : handle M) (w : world (obj M)) (st : obj M).

Lemma world_eq w h st :
  heap w !! loc_of h = Some st ->
  World (<[loc_of h := st]> (heap w)) (next_fut w) = w.
Proof. apply put_same. Qed.

Lemma observe_cell h w st :
  heap w !! loc_of h = Some st ->
  observe M h w = Some (cell_triple (view st)).
Proof. intros H. unfold observe. by rewrite (peek_view _ _ _ _ HR), H. Qed.

Lemma attempt_cell h o w st :
  paired h ->
  heap w !! loc_of h = Some st ->
  exists st',
    attempt (methods M h) o w
    = Some (Ok (Cell.attempt o (view st) (next_fut w)).1.1,
            World (<[loc_of h := st']> (heap w))
                  (Cell.attempt o (view st) (next_fut w)).2)
    /\ view st' = (Cell.attempt o (view st) (next_fut w)).1.2.
Proof.
  intros Hp H. unfold attempt, Cell.attempt. destruct o as [v| | |i]; cbn.
  - destruct (send_cell _ _ _ _ HR h v w st Hp H) as (st' & E & V).
    unfold bind. rewrite E. unfold put.
    destruct (Cell.send v (view st)) as [[[]|e] c']; cbn in *; eauto.
  - unfold bind. rewrite (try_recv_cell _ _ _ _ HR h w st H).
    exists st. unfold Cell.perform.
    destruct (Cell.try_recv (view st)); cbn; by rewrite world_eq.
  - destruct (recv_cell _ _ _ _ HR h w st H) as (st' & E & V).
    unfold bind. rewrite E.
    destruct (Cell.recv (view st) (next_fut w)) as [[[[v|i]|e] c'] n']; cbn in *; eauto.
  - unfold bind. rewrite (waker_cell _ _ _ _ HR h w st H).
    destruct (Event.woken i (Cell.waker (view st))).
    + destruct (recv_resume_cell _ _ _ _ HR h i w st H) as (st' & E & V).
      rewrite E. unfold put.
      destruct (Cell.recv_resume i (view st)) as [[v|e] c']; cbn in *; eauto.
    + exists st. cbn. by rewrite world_eq.
Qed.

Lemma run_cell h ops w st :
  paired h ->
  heap w !! loc_of h = Some st ->
  exists st',
    run (methods M h) ops w
    = Some (Ok (Cell.run ops (view st) (next_fut w)).1.1,
            World (<[loc_of h := st']> (heap w))
                  (Cell.run ops (view st) (next_fut w)).2)
    /\ view st' = (Cell.run ops (view st) (next_fut w)).1.2.
Proof.
  intros Hp. revert w st. induction ops as [|o ops IH]; intros w st H.
  - exists st. cbn. by rewrite world_eq.
  - destruct (attempt_cell h o w st Hp H) as (st1 & E1 & V1).
    set (w1 := World _ _) in E1.
    destruct (IH w1 st1) as (st2 & E2 & V2); [apply lookup_insert_eq|].
    exists st2. rewrite run_cons. cbn [run fst snd].
    rewrite (bind_ok _ _ _ _ _ E1). cbn in E2. rewrite V1 in E2, V2.
    rewrite (bind_ok _ _ _ _ _ E2). rewrite insert_insert_eq. done.
Qed.

(** A session ends with the channel's cell in order, at a location that held
    nothing before, and leaves the other objects alone. *)
Lemma session_reach ops w :
  exists h w1 st,
    session M ops w
    = Some (Ok (h, (Cell.run ops Cell.new (next_fut w)).1.1), w1)
    /\ paired h
    /\ heap w1 !! loc_of h = Some st
    /\ cell_ok (first_sent ops) (view st)
    /\ heap w !! loc_of h = None
    /\ (forall l, l <> loc_of h -> heap w1 !! l = heap w !! l)
    /\ view st = (Cell.run ops Cell.new (next_fut w)).1.2
    /\ next_fut w1 = (Cell.run ops Cell.new (next_fut w)).2.
Proof.
  destruct (create_new _ _ _ _ HR w) as (h & o & E & V & Hp & Hf).
  destruct (run_cell h ops (put (loc_of h) o w) o Hp) as (st & E' & V');
    [apply heap_put|].
  rewrite V in E', V'. cbn in E'. rewrite insert_insert_eq in E'.
  exists h, (World (<[loc_of h := st]> (heap w))
               (Cell.run ops Cell.new (next_fut w)).2), st.
  split; [|split; [done|split; [apply lookup_insert_eq|]]].
  - unfold session. rewrite (bind_ok _ _ _ _ _ E), (bind_ok _ _ _ _ _ E'). done.
  - split; [|split; [done|split; [|done]]].
    + rewrite V'. apply (run_ok None ops). apply cell_ok_new.
    + intros l Hl. cbn. by apply lookup_insert_ne.
Qed.

(** *** Single calls on a cell in order *)

Lemma send_unsent h v w st :
  paired h ->
  heap w !! loc_of h = Some st ->
  cell_ok None (view st) ->
  exists st',
    call_send (methods M h) v w = Some (Ok tt, put (loc_of h) st' w)
    /\ cell_ok (Some v) (view st').
Proof.
  intros Hp H Hok.
  destruct (send_cell _ _ _ _ HR h v w st Hp H) as (st' & E & V).
  exists st'. rewrite E, V. clear E V.
  destruct (view st) as [[b q] s x]. destruct Hok as (Hb & _).
  unfold Cell.is_set in Hb. cbn in Hb. subst b. by repeat split.
Qed.

Lemma send_sent h v v0 w st :
  paired h ->
  heap w !! loc_of h = Some st ->
  cell_ok (Some v0) (view st) ->
  call_send (methods M h) v w = Some (Raise (already_sent_error v0), w).
Proof.
  intros Hp H Hok.
  destruct (send_cell _ _ _ _ HR h v w st Hp H) as (st' & E & V).
  destruct Hok as (Hb & _ & Hv). unfold Cell.send in E, V.
  rewrite Hb, ?Hv in E, V. cbn in E, V. apply (view_inj _ _ _ _ HR) in V. subst st'.
  by rewrite put_same in E.
Qed.

Lemma try_recv_in_order h w st p :
  heap w !! loc_of h = Some st ->
  cell_ok p (view st) ->
  call_try_recv (methods M h) w = Some (Ok (default PyNone p), w).
Proof.
  intros H Hok. rewrite (try_recv_cell _ _ _ _ HR h w st H).
  unfold Cell.try_recv, Cell.after_wait. destruct p as [v|].
  - destruct Hok as (-> & -> & ->). done.
  - destruct Hok as (-> & _). done.
Qed.

Lemma recv_sent h w st v :
  heap w !! loc_of h = Some st ->
  cell_ok (Some v) (view st) ->
  call_recv (methods M h) w = Some (Ok (Event.Ready v), w).
Proof.
  intros H Hok. destruct (recv_cell _ _ _ _ HR h w st H) as (st' & E & V).
  destruct Hok as (Hb & Hs & Hv). unfold Cell.recv, Cell.after_wait in E, V.
  rewrite Hb, Hs, Hv in E. rewrite Hb in V.
  cbn in E, V. apply (view_inj _ _ _ _ HR) in V. subst st'.
  by rewrite world_eq in E.
Qed.

Lemma recv_unsent h w st :
  heap w !! loc_of h = Some st ->
  cell_ok None (view st) ->
  exists st',
    call_recv (methods M h) w
    = Some (Ok (Event.Pending (next_fut w)),
            World (<[loc_of h := st']> (heap w)) (S (next_fut w)))
    /\ cell_ok None (view st')
    /\ cell_triple (view st') = cell_triple (view st).
Proof.
  intros H Hok. destruct (recv_cell _ _ _ _ HR h w st H) as (st' & E & V).
  exists st'. destruct Hok as (Hb & Hs & Hv & Hq).
  unfold Cell.recv in E, V. rewrite Hb in E, V. cbn in E, V.
  split; [done|]. rewrite V. unfold cell_triple, Cell.is_set. cbn.
  split; [|by rewrite <- Hb].
  repeat split; try done. unfold Cell.waiters. cbn.
  apply Forall_app. split; [done|]. by repeat constructor.
Qed.

(** Any call but [send], on any cell, leaves the signal, the flag and the
    value as they are. *)
Lemma perform_frame h o w st :
  paired h ->
  heap w !! loc_of h = Some st ->
  is_send o = false ->
  exists r w',
    attempt (methods M h) o w = Some (Ok r, w')
    /\ observe M h w' = observe M h w.
Proof.
  intros Hp H Ho. destruct (attempt_cell h o w st Hp H) as (st' & E & V).
  do 2 eexists. split; [exact E|].
  rewrite (observe_cell h w st H).
  rewrite (observe_cell h _ st') by apply lookup_insert_eq.
  by rewrite V, attempt_frame.
Qed.
End Sessions.

(** ** The properties, for a module that runs like the reference machine *)

Section Properties.
Context {T : Type} {R : Repr T} (M : oneshot_module T).
Context (loc_of : handle M -> loc) (view : obj M -> Cell.t T).
Context (paired : handle M -> Prop).
Hypothesis HR : refines M loc_of view paired.
Implicit Types (h : handle M) (w : world (obj M)) (st : obj M).

Lemma send_try_recv_gen (v : pyval T) w :
  exists w',
    (let* ch := create M in
     let* _ := call_send (methods M ch) v in
     call_try_recv (methods M ch)) w = Some (Ok v, w').
Proof.
  destruct (session_reach M _ _ _ HR [] w) as (h & w1 & st & E & Hp & H & Hok & _).
  unfold session in E. cbn in E.
  destruct (create_new _ _ _ _ HR w) as (h' & o & E0 & _).
  rewrite (bind_ok _ _ _ _ _ E0) in E. cbn in E. injection E as <- <-.
  destruct (send_unsent M _ _ _ HR h' v _ _ Hp H Hok) as (st' & E1 & Hok').
  eexists. rewrite (bind_ok _ _ _ _ _ E0), (bind_ok _ _ _ _ _ E1).
  by apply (try_recv_in_order M _ _ _ HR h' _ st' (Some v)); [apply heap_put|].
Qed.

Lemma second_send_gen ops (v1 v2 : pyval T) w :
  first_sent ops = Some v1 ->
  exists ch outs w1 k,
    session M ops w = Some (Ok (ch, outs), w1)
    /\ ops !! k = Some (Send v1)
    /\ outs !! k = Some (Returned PyNone)
    /\ call_send (methods M ch) v2 w1
       = Some (Raise (already_sent_error v1), w1)
    /\ call_try_recv (methods M ch) w1 = Some (Ok v1, w1).
Proof.
  intros Hf.
  destruct (session_reach M _ _ _ HR ops w) as (h & w1 & st & E & Hp & H & Hok & _).
  rewrite Hf in Hok.
  destruct (run_first_send ops v1 Cell.new (next_fut w) cell_ok_new Hf)
    as (k & Hk & Hr).
  eexists h, _, w1, k. split; [exact E|]. split; [exact Hk|].
  split; [exact Hr|]. split.
  - by eapply send_sent.
  - by apply (try_recv_in_order M _ _ _ HR h _ st (Some v1)).
Qed.

Lemma cell_invariant_gen ops w :
  exists ch outs w1 e s x,
    session M ops w = Some (Ok (ch, outs), w1)
    /\ observe M ch w1 = Some (e, s, x)
    /\ e = s
    /\ (is_present x = false \/ e = true)
    /\ match first_sent ops with
       | Some v => e = true /\ x = v
       | None => e = false /\ x = PyNone
       end.
Proof.
  destruct (session_reach M _ _ _ HR ops w) as (h & w1 & st & E & Hp & H & Hok & _).
  pose proof (observe_cell M _ _ _ HR h w1 st H) as Hobs.
  unfold cell_triple in Hobs.
  eexists h, _, w1, _, _, _. split; [exact E|]. split; [exact Hobs|].
  destruct (first_sent ops) as [v|].
  - destruct Hok as (-> & -> & ->). by eauto.
  - destruct Hok as (-> & -> & -> & _). by eauto.
Qed.

Lemma try_recv_gen ops w :
  exists ch outs w1 e s x,
    session M ops w = Some (Ok (ch, outs), w1)
    /\ observe M ch w1 = Some (e, s, x)
    /\ call_try_recv (methods M ch) w1
       = Some (Ok (if e then x else PyNone), w1)
    /\ (if e then x else PyNone) = default PyNone (first_sent ops).
Proof.
  destruct (session_reach M _ _ _ HR ops w) as (h & w1 & st & E & Hp & H & Hok & _).
  pose proof (observe_cell M _ _ _ HR h w1 st H) as Hobs.
  unfold cell_triple in Hobs.
  pose proof (try_recv_in_order M _ _ _ HR h w1 st _ H Hok) as Et.
  eexists h, _, w1, _, _, _. split; [exact E|]. split; [exact Hobs|].
  destruct (first_sent ops) as [v|].
  - destruct Hok as (Hb & _ & Hv). by rewrite Hb, Hv.
  - destruct Hok as (Hb & _). by rewrite Hb.
Qed.

Lemma recv_gen ops w :
  exists ch outs w1,
    session M ops w = Some (Ok (ch, outs), w1)
    /\ match first_sent ops with
       | Some v =>
           observe M ch w1 = Some (true, true, v)
           /\ call_recv (methods M ch) w1 = Some (Ok (Event.Ready v), w1)
       | None =>
           observe M ch w1 = Some (false, false, PyNone)
           /\ exists w2, call_recv (methods M ch) w1
                         = Some (Ok (Event.Pending (next_fut w1)), w2)
       end.
Proof.
  destruct (session_reach M _ _ _ HR ops w) as (h & w1 & st & E & Hp & H & Hok & _).
  pose proof (observe_cell M _ _ _ HR h w1 st H) as Hobs.
  unfold cell_triple in Hobs.
  eexists h, _, w1. split; [exact E|].
  destruct (first_sent ops) as [v|].
  - split; [|by eapply recv_sent].
    by destruct Hok as (Hb & Hs & Hv); rewrite Hb, Hs, Hv in Hobs.
  - split.
    + by destruct Hok as (Hb & Hs & Hv & _); rewrite Hb, Hs, Hv in Hobs.
    + destruct (recv_unsent M _ _ _ HR h w1 st H Hok) as (st' & E' & _). eauto.
Qed.

Lemma run_try_recvs (v : pyval T) (c : Cell.t T) n k :
  cell_ok (Some v) c ->
  Cell.run (repeat TryRecv k) c n = (repeat (Returned v) k, c, n).
Proof.
  intros Hok. induction k as [|k IH]; [done|].
  cbn [repeat]. rewrite run_cons, (attempt_try_recv _ _ _ Hok). cbn [fst snd].
  by rewrite IH.
Qed.

Lemma observers_gen :
  (forall ops w,
     exists ch outs w1,
       session M ops w = Some (Ok (ch, outs), w1)
       /\ (exists r, call_try_recv (methods M ch) w1 = Some (r, w1))
       /\ (exists r w2, call_recv (methods M ch) w1 = Some (r, w2)
                        /\ observe M ch w2 = observe M ch w1)
       /\ (forall i, exists r w2,
             attempt (methods M ch) (Resume i) w1 = Some (r, w2)
             /\ observe M ch w2 = observe M ch w1))
  /\ (forall v w,
        exists ch w1 w2,
          session M [] w = Some (Ok (ch, []), w1)
          /\ observe M ch w1 = Some (false, false, PyNone)
          /\ call_send (methods M ch) v w1 = Some (Ok tt, w2)
          /\ observe M ch w2 = Some (true, true, v))
  /\ (forall v k w,
        exists ch w1,
          session M (Send v :: repeat TryRecv k) w
          = Some (Ok (ch, Returned PyNone :: repeat (Returned v) k), w1)).
Proof.
  split; [|split].
  - intros ops w.
    destruct (session_reach M _ _ _ HR ops w) as (h & w1 & st & E & Hp & H & Hok & _).
    eexists h, _, w1. split; [exact E|]. split; [|split].
    + eexists. by eapply try_recv_in_order.
    + destruct (first_sent ops) as [v|].
      * do 2 eexists. split; [by eapply recv_sent|done].
      * destruct (recv_unsent M _ _ _ HR h w1 st H Hok) as (st' & E' & _ & Ht).
        do 2 eexists. split; [exact E'|].
        rewrite (observe_cell M _ _ _ HR h w1 st H).
        rewrite (observe_cell M _ _ _ HR h _ st') by apply lookup_insert_eq.
        by rewrite Ht.
    + intros i.
      destruct (perform_frame M _ _ _ HR h (Resume i) w1 st Hp H) as (r & w2 & E' & Ho);
        [done|]. eauto.
  - intros v w.
    destruct (session_reach M _ _ _ HR [] w) as (h & w1 & st & E & Hp & H & Hok & _).
    destruct (send_unsent M _ _ _ HR h v _ _ Hp H Hok) as (st' & E1 & Hok').
    eexists h, w1, _. split; [exact E|]. split; [|split; [exact E1|]].
    + rewrite (observe_cell M _ _ _ HR h w1 st H). unfold cell_triple.
      by destruct Hok as (-> & -> & -> & _).
    + rewrite (observe_cell M _ _ _ HR h _ st') by apply heap_put.
      unfold cell_triple. by destruct Hok' as (-> & -> & ->).
  - intros v k w.
    destruct (session_reach M _ _ _ HR (Send v :: repeat TryRecv k) w)
      as (h & w1 & st & E & _).
    rewrite run_cons in E. cbn [fst snd] in E.
    destruct (attempt_send_new v Cell.new (next_fut w) cell_ok_new) as (c' & Ec & Hok).
    rewrite Ec in E. cbn [fst snd] in E. rewrite (run_try_recvs v) in E by done.
    by eexists h, w1.
Qed.

Lemma no_assertion_gen ops w :
  exists ch outs w1 e s x,
    session M ops w = Some (Ok (ch, outs), w1)
    /\ (Raised AssertionError ∉ outs)
    /\ observe M ch w1 = Some (e, s, x)
    /\ (e = false \/ s = true).
Proof.
  destruct (session_reach M _ _ _ HR ops w) as (h & w1 & st & E & Hp & H & Hok & _).
  pose proof (observe_cell M _ _ _ HR h w1 st H) as Hobs.
  unfold cell_triple in Hobs.
  eexists h, _, w1, _, _, _. split; [exact E|]. split; [|split; [exact Hobs|]].
  - intros Hin.
    pose proof (run_no_assert None ops Cell.new (next_fut w) cell_ok_new) as Hall.
    rewrite Forall_forall in Hall. by apply (Hall _ Hin).
  - destruct (first_sent ops) as [v|].
    + destruct Hok as (_ & -> & _). by right.
    + destruct Hok as (-> & _). by left.
Qed.

Lemma none_payload_gen w :
  exists ch1 w1 ch2 w2,
    session M [Send PyNone] w = Some (Ok (ch1, [Returned PyNone]), w1)
    /\ session M [] w = Some (Ok (ch2, []), w2)
    /\ call_try_recv (methods M ch1) w1 = Some (Ok PyNone, w1)
    /\ call_try_recv (methods M ch2) w2 = Some (Ok PyNone, w2)
    /\ observe M ch1 w1 = Some (true, true, PyNone)
    /\ observe M ch2 w2 = Some (false, false, PyNone).
Proof.
  destruct (session_reach M _ _ _ HR [Send PyNone] w)
    as (h1 & w1 & st1 & E1 & _ & H1 & Hok1 & _).
  destruct (session_reach M _ _ _ HR [] w)
    as (h2 & w2 & st2 & E2 & _ & H2 & Hok2 & _).
  exists h1, w1, h2, w2. split; [exact E1|]. split; [exact E2|].
  split; [by apply (try_recv_in_order M _ _ _ HR h1 w1 st1 (Some PyNone))|].
  split; [by apply (try_recv_in_order M _ _ _ HR h2 w2 st2 None)|].
  rewrite (observe_cell M _ _ _ HR h1 w1 st1 H1).
  rewrite (observe_cell M _ _ _ HR h2 w2 st2 H2). unfold cell_triple.
  cbn in Hok1, Hok2. destruct Hok1 as (-> & -> & ->).
  by destruct Hok2 as (-> & -> & -> & _).
Qed.

(** What a session gives is what the reference machine gives. *)
Lemma session_machine ops w :
  exists ch w1,
    session M ops w
    = Some (Ok (ch, (Cell.run ops Cell.new (next_fut w)).1.1), w1)
    /\ peek M ch w1
       = Some (Cell.waker (Cell.run ops Cell.new (next_fut w)).1.2,
               Cell.sent (Cell.run ops Cell.new (next_fut w)).1.2,
               Cell.value (Cell.run ops Cell.new (next_fut w)).1.2)
    /\ next_fut w1 = (Cell.run ops Cell.new (next_fut w)).2.
Proof.
  destruct (session_reach M _ _ _ HR ops w)
    as (h & w1 & st & E & _ & H & _ & _ & _ & V & N).
  exists h, w1. split; [exact E|]. split; [|exact N].
  by rewrite (peek_view _ _ _ _ HR), H, <- V.
Qed.
End Properties.

(** ** The two scenarios of the test suite, run *)

Example scenario_send_and_try_recv :
  both_modules (fun M =>
    outcomes M [TryRecv; Send (PyObj 4); TryRecv; Send (PyObj 5); TryRecv] boot
    = Some (Ok [Returned PyNone; Returned PyNone; Returned (PyObj 4);
                Raised ValueError; Returned (PyObj 4)])).
Proof. split; reflexivity. Qed.

Example scenario_recv_waits_for_value :
  both_modules (fun M =>
    outcomes M [Recv; Send (PyObj 9); Resume 0] boot
    = Some (Ok [Suspended 0; Returned PyNone; Returned (PyObj 9)])).
Proof. split; reflexivity. Qed.

(** * The documented properties *)

(** C1: for every value [v], making a channel, sending [v] and then calling
    [try_recv] gives [v] back. (Python has no option wrapper: the call
    returns the value itself.) *)
Theorem send_then_try_recv (T : Type) {R : Repr T} (v : pyval T) :
  both_modules (fun M =>
    forall w : world (obj M),
    exists w',
      (let* ch := create M in
       let* _ := call_send (methods M ch) v in
       call_try_recv (methods M ch)) w = Some (Ok v, w')).
Proof.
  split; intros w.
  - exact (send_try_recv_gen _ _ _ _ aio_sync_refines v w).
  - exact (send_try_recv_gen _ _ _ _ aiosync_refines v w).
Qed.

(** C2: the claim is that a [send] on a channel already sent on raises the
    already-sent error ([ValueError]). The code formats the channel into the
    error message first: with a payload whose [__repr__] raises, the second
    [send] raises that exception, in both modules, and no [ValueError]. *)
Theorem second_send_of_unprintable_payload :
  both_modules (fun M =>
    outcomes M [Send (PyObj Unprintable); Send (PyObj Unprintable)] boot
    = Some (Ok [Returned PyNone; Raised (ReprRaised "RuntimeError")])).
Proof. split; reflexivity. Qed.

(** C3: once [send v1] has succeeded, whatever was called before it and
    whatever is called after it, a further [send v2] fails and leaves the
    whole world as it was, and [try_recv] still returns [v1]. The send
    fails with [ValueError], or with what the [__repr__] of [v1] raises. *)
Theorem second_send_changes_nothing (T : Type) {R : Repr T}
    (ops : list (op T)) (v1 v2 : pyval T) :
  first_sent ops = Some v1 ->
  both_modules (fun M =>
    forall w : world (obj M),
    exists ch outs w1 k,
      session M ops w = Some (Ok (ch, outs), w1)
      /\ ops !! k = Some (Send v1)
      /\ outs !! k = Some (Returned PyNone)
      /\ call_send (methods M ch) v2 w1
         = Some (Raise (already_sent_error v1), w1)
      /\ call_try_recv (methods M ch) w1 = Some (Ok v1, w1)).
Proof.
  intros Hf. split; intros w.
  - exact (second_send_gen _ _ _ _ aio_sync_refines ops v1 v2 w Hf).
  - exact (second_send_gen _ _ _ _ aiosync_refines ops v1 v2 w Hf).
Qed.

Lemma second_send_changes_nothing_witness :
  first_sent [Recv; Send (PyObj 4); Recv; TryRecv] = Some (PyObj 4)
  /\ both_modules (fun M =>
       forall w : world (obj M),
       exists ch outs w1 k,
         session M [Recv; Send (PyObj 4); Recv; TryRecv] w
         = Some (Ok (ch, outs), w1)
         /\ [Recv; Send (PyObj 4); Recv; TryRecv] !! k = Some (Send (PyObj 4))
         /\ outs !! k = Some (Returned PyNone)
         /\ call_send (methods M ch) (PyObj 5) w1
            = Some (Raise (already_sent_error (PyObj 4)), w1)
         /\ call_try_recv (methods M ch) w1 = Some (Ok (PyObj 4), w1)).
Proof.
  split; [reflexivity|].
  exact (second_send_changes_nothing nat [Recv; Send (PyObj 4); Recv; TryRecv]
           (PyObj 4) (PyObj 5) eq_refl).
Defined.

(** C4, as worded, fails: after [send(None)] the signal is set and the flag
    is true, but the value is [None], that is, not present. *)
Lemma invariant_fails_on_none_payload :
  both_modules (fun M =>
    exists ch w1 t,
      session M [Send (@PyNone nat)] boot = Some (Ok (ch, [Returned PyNone]), w1)
      /\ observe M ch w1 = Some t
      /\ ~ signal_iff_sent_and_present t).
Proof.
  split.
  - eexists _, _, (true, true, PyNone). split; [reflexivity|].
    split; [reflexivity|]. intros [H _]. by destruct H.
  - eexists _, _, (true, true, PyNone). split; [reflexivity|].
    split; [reflexivity|]. intros [H _]. by destruct H.
Qed.

(** C4, amended: after any calls on a new channel, the signal is set exactly
    when the flag is true; a present value implies that the signal is set;
    and the signal is set exactly when a [send] was called, in which case
    the value is the payload of the first [send] (present unless that
    payload is [None]), while before that the value is [None]. *)
Theorem cell_invariant (T : Type) {R : Repr T} :
  both_modules (fun M =>
    forall (ops : list (op T)) (w : world (obj M)),
    exists ch outs w1 e s x,
      session M ops w = Some (Ok (ch, outs), w1)
      /\ observe M ch w1 = Some (e, s, x)
      /\ e = s
      /\ (is_present x = false \/ e = true)
      /\ match first_sent ops with
         | Some v => e = true /\ x = v
         | None => e = false /\ x = PyNone
         end).
Proof.
  split; intros ops w.
  - exact (cell_invariant_gen _ _ _ _ aio_sync_refines ops w).
  - exact (cell_invariant_gen _ _ _ _ aiosync_refines ops w).
Qed.

(** C5: started with the same future counter, the two modules give the same
    outcomes (values, exceptions, suspensions) for every sequence of calls,
    and end with the same event, flag and value. *)
Theorem modules_agree (T : Type) {R : Repr T} (ops : list (op T))
    (h1 : gmap nat (aio_sync._SharedState.t T))
    (h2 : gmap nat (aiosync.OneShot.t T)) (n : nat) :
  exists ch1 ch2 outs w1 w2 t,
    session (aio_sync_module T) ops (World h1 n) = Some (Ok (ch1, outs), w1)
    /\ session (aiosync_module T) ops (World h2 n) = Some (Ok (ch2, outs), w2)
    /\ peek (aio_sync_module T) ch1 w1 = Some t
    /\ peek (aiosync_module T) ch2 w2 = Some t
    /\ next_fut w1 = next_fut w2.
Proof.
  destruct (session_machine _ _ _ _ aio_sync_refines ops (World h1 n))
    as (ch1 & w1 & E1 & P1 & N1).
  destruct (session_machine _ _ _ _ aiosync_refines ops (World h2 n))
    as (ch2 & w2 & E2 & P2 & N2).
  eexists ch1, ch2, _, w1, w2, _. cbn [next_fut] in *.
  split; [exact E1|]. split; [exact E2|]. split; [exact P1|].
  split; [exact P2|]. by rewrite N1, N2.
Qed.

(** C6: after any calls on a new channel, [try_recv] does not fail and
    changes nothing; it returns the stored value if the signal is set and
    [None] otherwise, which is the payload sent if a [send] was called and
    [None] if not. On a new channel ([ops = []]) that is [None]. *)
Theorem try_recv_returns_value_or_none (T : Type) {R : Repr T} :
  both_modules (fun M =>
    forall (ops : list (op T)) (w : world (obj M)),
    exists ch outs w1 e s x,
      session M ops w = Some (Ok (ch, outs), w1)
      /\ observe M ch w1 = Some (e, s, x)
      /\ call_try_recv (methods M ch) w1
         = Some (Ok (if e then x else PyNone), w1)
      /\ (if e then x else PyNone) = default PyNone (first_sent ops)).
Proof.
  split; intros ops w.
  - exact (try_recv_gen _ _ _ _ aio_sync_refines ops w).
  - exact (try_recv_gen _ _ _ _ aiosync_refines ops w).
Qed.

(** C7: after any calls on a new channel among which a [send], the signal is
    set and [recv] returns at once, without suspending and without changing
    the world, the value that was sent. (With no [send] among them the
    signal is unset and [recv] suspends.) *)
Theorem recv_after_send_returns_at_once (T : Type) {R : Repr T} :
  both_modules (fun M =>
    forall (ops : list (op T)) (w : world (obj M)),
    exists ch outs w1,
      session M ops w = Some (Ok (ch, outs), w1)
      /\ match first_sent ops with
         | Some v =>
             observe M ch w1 = Some (true, true, v)
             /\ call_recv (methods M ch) w1 = Some (Ok (Event.Ready v), w1)
         | None =>
             observe M ch w1 = Some (false, false, PyNone)
             /\ exists w2, call_recv (methods M ch) w1
                           = Some (Ok (Event.Pending (next_fut w1)), w2)
         end).
Proof.
  split; intros ops w.
  - exact (recv_gen _ _ _ _ aio_sync_refines ops w).
  - exact (recv_gen _ _ _ _ aiosync_refines ops w).
Qed.

(** C8: after any calls on a new channel, [try_recv] leaves the world as it
    is, and [recv], whether it returns, suspends or is resumed, leaves the
    signal, the flag and the value as they are; a [send] on a new channel
    changes all three. So [try_recv], called any number of times after a
    [send], returns the value sent every time. *)
Theorem only_send_mutates (T : Type) {R : Repr T} :
  both_modules (fun M =>
    (forall (ops : list (op T)) (w : world (obj M)),
     exists ch outs w1,
       session M ops w = Some (Ok (ch, outs), w1)
       /\ (exists r, call_try_recv (methods M ch) w1 = Some (r, w1))
       /\ (exists r w2, call_recv (methods M ch) w1 = Some (r, w2)
                        /\ observe M ch w2 = observe M ch w1)
       /\ (forall i, exists r w2,
             attempt (methods M ch) (Resume i) w1 = Some (r, w2)
             /\ observe M ch w2 = observe M ch w1))
    /\ (forall (v : pyval T) (w : world (obj M)),
        exists ch w1 w2,
          session M [] w = Some (Ok (ch, []), w1)
          /\ observe M ch w1 = Some (false, false, PyNone)
          /\ call_send (methods M ch) v w1 = Some (Ok tt, w2)
          /\ observe M ch w2 = Some (true, true, v))
    /\ (forall (v : pyval T) (k : nat) (w : world (obj M)),
        exists ch w1,
          session M (Send v :: repeat TryRecv k) w
          = Some (Ok (ch, Returned PyNone :: repeat (Returned v) k), w1))).
Proof.
  split.
  - exact (observers_gen _ _ _ _ aio_sync_refines).
  - exact (observers_gen _ _ _ _ aiosync_refines).
Qed.

(** C9: no call in any sequence of calls on a new channel raises
    [AssertionError], and in the cell they lead to the signal is unset or
    the flag is true. *)
Theorem assertion_never_fires (T : Type) {R : Repr T} :
  both_modules (fun M =>
    forall (ops : list (op T)) (w : world (obj M)),
    exists ch outs w1 e s x,
      session M ops w = Some (Ok (ch, outs), w1)
      /\ (Raised AssertionError ∉ outs)
      /\ observe M ch w1 = Some (e, s, x)
      /\ (e = false \/ s = true)).
Proof.
  split; intros ops w.
  - exact (no_assertion_gen _ _ _ _ aio_sync_refines ops w).
  - exact (no_assertion_gen _ _ _ _ aiosync_refines ops w).
Qed.

(** C10: after [send(None)] on a new channel, [try_recv] returns [None], as
    it does on a new channel on which nothing was sent, although the two
    cells differ in signal and flag. *)
Theorem none_payload_looks_unsent (T : Type) {R : Repr T} :
  both_modules (fun M =>
    forall w : world (obj M),
    exists ch1 w1 ch2 w2,
      session M [Send (@PyNone T)] w = Some (Ok (ch1, [Returned PyNone]), w1)
      /\ session M [] w = Some (Ok (ch2, []), w2)
      /\ call_try_recv (methods M ch1) w1 = Some (Ok PyNone, w1)
      /\ call_try_recv (methods M ch2) w2 = Some (Ok PyNone, w2)
      /\ observe M ch1 w1 = Some (true, true, PyNone)
      /\ observe M ch2 w2 = Some (false, false, PyNone)).
Proof.
  split; intros w.
  - exact (none_payload_gen _ _ _ _ aio_sync_refines w).
  - exact (none_payload_gen _ _ _ _ aiosync_refines w).
Qed.

(** * Further properties of the code *)

(** ** Waiting futures and outcomes in the reference machine *)

Section Waiters.
Context {T : Type} {R : Repr T}.
Implicit Types (c : Cell.t T) (p : option (pyval T)) (o : op T) (n i : nat).

Lemma or_else_None {A} (p : option A) : or_else p None = p.
Proof. by destruct p. Qed.

Lemma remove_Forall (P : Event.fut -> Prop) i (q q' : list Event.fut) :
  Forall P q -> Event.remove i q = Some q' -> Forall P q'.
Proof.
  intros H. revert q'. induction H as [|f q Hf Hq IH]; cbn; [done|].
  intros q'. destruct (Nat.eqb (Event.fut_id f) i).
  - by intros [= <-].
  - destruct (Event.remove i q) as [r|]; [|done].
    intros [= <-]. constructor; [done|]. by apply IH.
Qed.

Lemma remove_keeps i j (q q' : list Event.fut) :
  i <> j -> Event.remove j q = Some q' ->
  i ∈ Event.fut_id <$> q -> i ∈ Event.fut_id <$> q'.
Proof.
  intros Hij. revert q'. induction q as [|f q IH]; cbn; [done|].
  intros q'. destruct (Nat.eqb_spec (Event.fut_id f) j) as [Hf|Hf].
  - intros [= <-]. rewrite elem_of_cons. intros [->|]; [done|done].
  - destruct (Event.remove j q) as [r|]; [|done].
    intros [= <-]. cbn. rewrite !elem_of_cons. intros [->|Hin]; [by left|].
    right. by apply IH.
Qed.

Lemma resolve_id (f : Event.fut) : Event.fut_id (Event.resolve f) = Event.fut_id f.
Proof. unfold Event.resolve. by destruct (Event.fut_done f). Qed.

Lemma resolve_done (f : Event.fut) : Event.fut_done (Event.resolve f) = true.
Proof. unfold Event.resolve. by destruct (Event.fut_done f) eqn:E. Qed.

Lemma woken_waiting i (q : list Event.fut) :
  Forall (fun f => Event.fut_done f = true) q ->
  i ∈ Event.fut_id <$> q ->
  existsb (fun f => Nat.eqb (Event.fut_id f) i && Event.fut_done f) q = true.
Proof.
  intros Hq Hi. apply list_elem_of_fmap in Hi as (f & -> & Hf).
  apply existsb_exists. exists f. split; [by apply list_elem_of_In|].
  rewrite Forall_forall in Hq. by rewrite (Hq f Hf), Nat.eqb_refl.
Qed.

Lemma cell_dones_ok_new : cell_dones_ok (Cell.new (T:=T)).
Proof. constructor. Qed.

Lemma attempt_dones_ok o c n :
  cell_dones_ok c -> cell_dones_ok (Cell.attempt o c n).1.2.
Proof.
  intros H. destruct c as [[b q] s v].
  unfold cell_dones_ok, Cell.attempt, Cell.perform, Cell.send, Cell.try_recv,
    Cell.recv, Cell.recv_resume, Cell.after_wait, Cell.is_set, Cell.waiters in *.
  cbn in H. destruct o as [v'| | |i]; cbn.
  - destruct b; cbn; [done|]. change (map Event.resolve q) with (Event.resolve <$> q).
    apply Forall_fmap, Forall_true. intros f. apply resolve_done.
  - by destruct b, s.
  - destruct b, s; cbn; try done.
    + apply Forall_app. split; [done|]. by repeat constructor.
    + apply Forall_app. split; [done|]. by repeat constructor.
  - destruct (existsb _ q); [|done]. cbn.
    destruct (Event.remove i q) as [q'|] eqn:E; [|done]. cbn.
    destruct s; cbn; by eapply remove_Forall.
Qed.

Lemma attempt_waits i o c n :
  o <> Resume i -> cell_waits i c -> cell_waits i (Cell.attempt o c n).1.2.
Proof.
  intros Ho H. destruct c as [[b q] s v].
  unfold cell_waits, Cell.attempt, Cell.perform, Cell.send, Cell.try_recv,
    Cell.recv, Cell.recv_resume, Cell.after_wait, Cell.is_set, Cell.waiters in *.
  cbn in H. destruct o as [v'| | |j]; cbn.
  - destruct b; cbn; [done|]. change (map Event.resolve q) with (Event.resolve <$> q).
    rewrite <- list_fmap_compose.
    by rewrite (list_fmap_ext _ Event.fut_id q) by (intros; apply resolve_id).
  - by destruct b, s.
  - destruct b, s; cbn; try done; rewrite fmap_app; apply elem_of_app; by left.
  - destruct (existsb _ q); [|done]. cbn.
    destruct (Event.remove j q) as [q'|] eqn:E; [|done]. cbn.
    assert (i <> j) by congruence.
    destruct s; cbn; by eapply remove_keeps.
Qed.

Lemma run_dones_ok ops c n :
  cell_dones_ok c -> cell_dones_ok (Cell.run ops c n).1.2.
Proof.
  revert c n. induction ops as [|o ops IH]; intros c n H; [done|].
  rewrite run_cons. cbn. apply IH. by apply attempt_dones_ok.
Qed.

Lemma run_waits i ops c n :
  Resume i ∉ ops -> cell_waits i c -> cell_waits i (Cell.run ops c n).1.2.
Proof.
  revert c n. induction ops as [|o ops IH]; intros c n Hn H; [done|].
  rewrite run_cons. cbn. apply not_elem_of_cons in Hn as [Ho Hn].
  apply IH; [done|]. by apply attempt_waits.
Qed.

Lemma run_length ops c n : length (Cell.run ops c n).1.1 = length ops.
Proof.
  revert c n. induction ops as [|o ops IH]; intros c n; [done|].
  rewrite run_cons. cbn. by rewrite IH.
Qed.

Lemma run_app ops1 ops2 c n :
  Cell.run (ops1 ++ ops2) c n
  = ((Cell.run ops1 c n).1.1
       ++ (Cell.run ops2 (Cell.run ops1 c n).1.2 (Cell.run ops1 c n).2).1.1,
     (Cell.run ops2 (Cell.run ops1 c n).1.2 (Cell.run ops1 c n).2).1.2,
     (Cell.run ops2 (Cell.run ops1 c n).1.2 (Cell.run ops1 c n).2).2).
Proof.
  revert c n. induction ops1 as [|o ops1 IH]; intros c n.
  - cbn. by destruct (Cell.run ops2 c n) as [[? ?] ?].
  - rewrite <- app_comm_cons, !run_cons. cbn [fst snd]. by rewrite IH.
Qed.

Lemma attempt_recv_waits c n :
  cell_ok None c ->
  (Cell.attempt Recv c n).1.1 = Suspended n
  /\ cell_waits n (Cell.attempt Recv c n).1.2.
Proof.
  intros H. cell_open c H. destruct H as (-> & -> & -> & _). cbn.
  split; [done|]. unfold cell_waits, Cell.waiters. cbn. rewrite fmap_app.
  apply elem_of_app. right. cbn. by apply list_elem_of_singleton.
Qed.

Lemma attempt_resume_waiting v i c n :
  cell_ok (Some v) c -> cell_dones_ok c -> cell_waits i c ->
  (Cell.attempt (Resume i) c n).1.1 = Returned v.
Proof.
  intros H Hd Hw. unfold cell_dones_ok, cell_waits in *.
  destruct c as [[b q] s x].
  unfold cell_ok, Cell.is_set, Cell.waiters in *. cbn in *.
  destruct H as (-> & -> & ->).
  unfold Cell.attempt, Cell.perform, Cell.recv_resume, Cell.after_wait,
    Cell.is_set, Cell.waiters, Event.woken. cbn.
  pose proof (woken_waiting i q Hd Hw) as E. rewrite E.
  by destruct (remove_woken _ _ E) as [q' ->].
Qed.

Lemma attempt_resume_unsent i c n :
  cell_ok None c -> (Cell.attempt (Resume i) c n).1.1 = Idle.
Proof.
  intros H.
  destruct (attempt_resume None i c n H) as (r & c' & -> & _ & _ & [->|(v & ? & _)]);
    done.
Qed.

(** A [recv] that suspended on future [i] is woken by the next [send]: once
    the calls [ops2] that follow it contain a [send], resuming [i] gives the
    payload; until then there is nothing to resume. *)
Lemma run_wake ops1 ops2 c n i :
  cell_ok None c -> cell_dones_ok c ->
  (Cell.run (ops1 ++ Recv :: ops2) c n).1.1 !! length ops1 = Some (Suspended i) ->
  Resume i ∉ ops2 ->
  (Cell.attempt (Resume i)
     (Cell.run (ops1 ++ Recv :: ops2) c n).1.2
     (Cell.run (ops1 ++ Recv :: ops2) c n).2).1.1
  = match first_sent ops2 with
    | Some v => Returned v
    | None => Idle
    end.
Proof.
  intros Hok Hd. rewrite run_app. cbn [fst snd].
  pose proof (run_ok None ops1 c n Hok) as Hok1.
  pose proof (run_dones_ok ops1 c n Hd) as Hd1.
  set (c1 := (Cell.run ops1 c n).1.2) in *.
  set (n1 := (Cell.run ops1 c n).2) in *.
  rewrite lookup_app_r by (rewrite run_length; lia).
  rewrite run_length, Nat.sub_diag, run_cons. cbn [fst snd lookup list_lookup].
  intros Hi Hn. cbn [or_else] in Hok1.
  destruct (first_sent ops1) as [v1|].
  { by rewrite (attempt_recv_set _ _ _ Hok1) in Hi. }
  destruct (attempt_recv_waits c1 n1 Hok1) as (Er & Hw).
  rewrite Er in Hi. injection Hi as <-.
  pose proof (attempt_ok None Recv c1 n1 Hok1) as Hok2.
  pose proof (attempt_dones_ok Recv c1 n1 Hd1) as Hd2.
  set (c2 := (Cell.attempt Recv c1 n1).1.2) in *.
  set (n2 := (Cell.attempt Recv c1 n1).2) in *.
  pose proof (run_ok None ops2 c2 n2 Hok2) as Hok3.
  pose proof (run_dones_ok ops2 c2 n2 Hd2) as Hd3.
  pose proof (run_waits n1 ops2 c2 n2 Hn Hw) as Hw3.
  cbn [or_else] in Hok3. destruct (first_sent ops2) as [v|].
  - by apply attempt_resume_waiting.
  - by apply attempt_resume_unsent.
Qed.

(** What each [send] and each [try_recv] of a sequence gives is fixed by the
    first [send] before it. *)
Lemma run_outcomes p ops c n :
  cell_ok p c ->
  (forall (k : nat) v,
     ops !! k = Some (Send v) ->
     (Cell.run ops c n).1.1 !! k
     = Some (match or_else p (first_sent (take k ops)) with
             | None => Returned PyNone
             | Some v0 => Raised (already_sent_error v0)
             end))
  /\ (forall k : nat,
        ops !! k = Some TryRecv ->
        (Cell.run ops c n).1.1 !! k
        = Some (Returned (default PyNone
                  (or_else p (first_sent (take k ops)))))).
Proof.
  revert p c n. induction ops as [|o ops IH]; intros p c n H; [done|].
  rewrite run_cons. cbn [fst snd].
  destruct (IH _ _ (Cell.attempt o c n).2 (attempt_ok _ o _ n H)) as [IHs IHt].
  split.
  - intros [|k] v Hk; cbn in Hk |- *.
    + injection Hk as ->. cbn. rewrite or_else_None. destruct p as [v0|].
      * by rewrite (attempt_send_again _ _ _ _ H).
      * by destruct (attempt_send_new v _ n H) as (c' & -> & ?).
    + etrans; [exact (IHs k v Hk)|]. rewrite or_else_assoc. by destruct o.
  - intros [|k] Hk; cbn in Hk |- *.
    + injection Hk as ->. cbn. rewrite or_else_None.
      by rewrite (attempt_try_recv _ _ _ H).
    + etrans; [exact (IHt k Hk)|]. rewrite or_else_assoc. by destruct o.
Qed.
End Waiters.

(** ** Sessions: waking, framing, two channels *)

Section Further.
Context {T : Type} {R : Repr T} (M : oneshot_module T).
Context (loc_of : handle M -> loc) (view : obj M -> Cell.t T).
Context (paired : handle M -> Prop).
Hypothesis HR : refines M loc_of view paired.
Implicit Types (h : handle M) (w : world (obj M)) (st : obj M).

Lemma wake_gen ops1 ops2 w ch outs w1 i :
  session M (ops1 ++ Recv :: ops2) w = Some (Ok (ch, outs), w1) ->
  outs !! length ops1 = Some (Suspended i) ->
  Resume i ∉ ops2 ->
  exists w2,
    attempt (methods M ch) (Resume i) w1
    = Some (Ok (match first_sent ops2 with
                | Some v => Returned v
                | None => Idle
                end), w2).
Proof.
  intros E Hi Hn.
  destruct (session_reach M _ _ _ HR (ops1 ++ Recv :: ops2) w)
    as (h & w1' & st & E' & Hp & H & _ & _ & _ & V & N).
  rewrite E' in E. injection E as -> <- ->.
  destruct (attempt_cell M _ _ _ HR ch (Resume i) w1 st Hp H) as (st' & Ea & _).
  rewrite V, N in Ea. eexists. rewrite Ea. do 3 f_equal.
  by apply run_wake; [apply cell_ok_new|apply cell_dones_ok_new|..].
Qed.

Lemma frame_gen ops w :
  exists ch outs w1,
    session M ops w = Some (Ok (ch, outs), w1)
    /\ (forall (l : loc) o, heap w !! l = Some o -> heap w1 !! l = Some o)
    /\ (forall b t, peek M b w = Some t -> peek M b w1 = Some t).
Proof.
  destruct (session_reach M _ _ _ HR ops w)
    as (h & w1 & st & E & _ & _ & _ & Hf & Hother & _).
  assert (Hkeep : forall (l : loc) o, heap w !! l = Some o -> heap w1 !! l = Some o).
  { intros l o Hl. rewrite Hother; [done|]. intros Heq. by rewrite Heq, Hf in Hl. }
  eexists h, _, w1. split; [exact E|]. split; [exact Hkeep|].
  intros b t. rewrite !(peek_view _ _ _ _ HR).
  destruct (heap w !! loc_of b) as [o|] eqn:Hb; [|done].
  by rewrite (Hkeep _ _ Hb).
Qed.

Lemma outcomes_gen ops w :
  exists ch outs w1,
    session M ops w = Some (Ok (ch, outs), w1)
    /\ (forall (k : nat) v,
          ops !! k = Some (Send v) ->
          outs !! k
          = Some (match first_sent (take k ops) with
                  | None => Returned PyNone
                  | Some v0 => Raised (already_sent_error v0)
                  end))
    /\ (forall k : nat,
          ops !! k = Some TryRecv ->
          outs !! k
          = Some (Returned (default PyNone (first_sent (take k ops))))).
Proof.
  destruct (session_reach M _ _ _ HR ops w) as (h & w1 & st & E & _).
  eexists h, _, w1. split; [exact E|].
  exact (run_outcomes None ops Cell.new (next_fut w) cell_ok_new).
Qed.

Lemma run2_cells ha hb ops w sta stb pa pb :
  paired ha -> paired hb -> loc_of ha <> loc_of hb ->
  heap w !! loc_of ha = Some sta -> heap w !! loc_of hb = Some stb ->
  cell_ok pa (view sta) -> cell_ok pb (view stb) ->
  exists outs w1 sta' stb',
    run2 (methods M ha) (methods M hb) ops w = Some (Ok outs, w1)
    /\ heap w1 !! loc_of ha = Some sta'
    /\ heap w1 !! loc_of hb = Some stb'
    /\ cell_ok (or_else pa (first_sent (calls_on true ops))) (view sta')
    /\ cell_ok (or_else pb (first_sent (calls_on false ops))) (view stb')
    /\ forall (k : nat) (side : bool),
         ops !! k = Some (side, TryRecv) ->
         outs !! k
         = Some (Returned (default PyNone
                   (or_else (if side then pa else pb)
                      (first_sent (calls_on side (take k ops)))))).
Proof.
  intros Hpa Hpb Hne. revert w sta stb pa pb.
  induction ops as [|[side o] ops IH]; intros w sta stb pa pb Ha Hb Hoa Hob.
  - exists (@nil (outcome T)), w, sta, stb. cbn. rewrite !or_else_None. by repeat split.
  - destruct side.
    + destruct (attempt_cell M _ _ _ HR ha o w sta Hpa Ha) as (sta1 & E1 & V1).
      set (w1 := World _ _) in E1.
      pose proof (attempt_ok pa o (view sta) (next_fut w) Hoa) as Hoa1.
      rewrite <- V1 in Hoa1.
      destruct (IH w1 sta1 stb (or_else pa (sent_by o)) pb)
        as (outs & w2 & sta' & stb' & E2 & Ha' & Hb' & Hoa' & Hob' & Hk);
        [apply lookup_insert_eq|by subst w1; cbn; rewrite lookup_insert_ne|done|done|].
      eexists _, w2, sta', stb'. cbn [run2 calls_on Bool.eqb].
      rewrite (bind_ok _ _ _ _ _ E1), (bind_ok _ _ _ _ _ E2).
      split; [reflexivity|]. split; [done|]. split; [done|].
      rewrite first_sent_cons, <- or_else_assoc. split; [done|]. split; [done|].
      intros [|k] side Hl; cbn in Hl |- *.
      * injection Hl as <- ->. cbn. rewrite or_else_None.
        by rewrite (attempt_try_recv _ _ _ Hoa).
      * etrans; [exact (Hk k side Hl)|]. destruct side; cbn [Bool.eqb]; [|done].
        by rewrite first_sent_cons, <- or_else_assoc.
    + destruct (attempt_cell M _ _ _ HR hb o w stb Hpb Hb) as (stb1 & E1 & V1).
      set (w1 := World _ _) in E1.
      pose proof (attempt_ok pb o (view stb) (next_fut w) Hob) as Hob1.
      rewrite <- V1 in Hob1.
      destruct (IH w1 sta stb1 pa (or_else pb (sent_by o)))
        as (outs & w2 & sta' & stb' & E2 & Ha' & Hb' & Hoa' & Hob' & Hk);
        [by subst w1; cbn; rewrite lookup_insert_ne|apply lookup_insert_eq|done|done|].
      eexists _, w2, sta', stb'. cbn [run2 calls_on Bool.eqb].
      rewrite (bind_ok _ _ _ _ _ E1), (bind_ok _ _ _ _ _ E2).
      split; [reflexivity|]. split; [done|]. split; [done|]. split; [done|].
      rewrite first_sent_cons, <- or_else_assoc. split; [done|].
      intros [|k] side Hl; cbn in Hl |- *.
      * injection Hl as <- ->. cbn. rewrite or_else_None.
        by rewrite (attempt_try_recv _ _ _ Hob).
      * etrans; [exact (Hk k side Hl)|]. destruct side; cbn [Bool.eqb]; [done|].
        by rewrite first_sent_cons, <- or_else_assoc.
Qed.

Lemma two_channels_gen ops w :
  exists a b outs w1,
    two_sessions M ops w = Some (Ok (a, b, outs), w1)
    /\ (forall (k : nat) (side : bool),
          ops !! k = Some (side, TryRecv) ->
          outs !! k
          = Some (Returned (default PyNone
                    (first_sent (calls_on side (take k ops))))))
    /\ call_try_recv (methods M a) w1
       = Some (Ok (default PyNone (first_sent (calls_on true ops))), w1)
    /\ call_try_recv (methods M b) w1
       = Some (Ok (default PyNone (first_sent (calls_on false ops))), w1).
Proof.
  destruct (create_new _ _ _ _ HR w) as (ha & oa & Ea & Va & Hpa & Hfa).
  destruct (create_new _ _ _ _ HR (put (loc_of ha) oa w))
    as (hb & ob & Eb & Vb & Hpb & Hfb).
  assert (Hne : loc_of ha <> loc_of hb).
  { intros Heq. rewrite <- Heq, heap_put in Hfb. done. }
  set (w0 := put (loc_of hb) ob (put (loc_of ha) oa w)) in *.
  destruct (run2_cells ha hb ops w0 oa ob None None Hpa Hpb Hne)
    as (outs & w1 & sta' & stb' & E & Ha' & Hb' & Hoa' & Hob' & Hk).
  - subst w0. cbn. rewrite lookup_insert_ne by done. apply lookup_insert_eq.
  - apply heap_put.
  - rewrite Va. apply cell_ok_new.
  - rewrite Vb. apply cell_ok_new.
  - exists ha, hb, outs, w1. split; [|split; [|split]].
    + unfold two_sessions.
      by rewrite (bind_ok _ _ _ _ _ Ea), (bind_ok _ _ _ _ _ Eb), (bind_ok _ _ _ _ _ E).
    + intros k side Hl. rewrite (Hk k side Hl). by destruct side.
    + by apply (try_recv_in_order M _ _ _ HR ha w1 sta').
    + by apply (try_recv_in_order M _ _ _ HR hb w1 stb').
Qed.
End Further.

(** ** The properties *)

(** X1: a [recv] called before any [send] suspends; if it suspended on
    future [i] and the loop has not resumed [i] since, then resuming it
    returns the value sent once a [send] has been called, and finds nothing
    to resume as long as none has. *)
Theorem suspended_recv_woken_by_send (T : Type) {R : Repr T} :
  both_modules (fun M =>
    forall (ops1 ops2 : list (op T)) (w : world (obj M)) ch outs w1 i,
      session M (ops1 ++ Recv :: ops2) w = Some (Ok (ch, outs), w1) ->
      outs !! length ops1 = Some (Suspended i) ->
      Resume i ∉ ops2 ->
      exists w2,
        attempt (methods M ch) (Resume i) w1
        = Some (Ok (match first_sent ops2 with
                    | Some v => Returned v
                    | None => Idle
                    end), w2)).
Proof.
  split; intros ops1 ops2 w ch outs w1 i.
  - exact (wake_gen _ _ _ _ aio_sync_refines ops1 ops2 w ch outs w1 i).
  - exact (wake_gen _ _ _ _ aiosync_refines ops1 ops2 w ch outs w1 i).
Qed.

Lemma suspended_recv_woken_by_send_witness :
  exists ch w1,
    session (aio_sync_module nat) ([] ++ Recv :: [Send (PyObj 9)]) boot
    = Some (Ok (ch, [Suspended 0; Returned PyNone]), w1)
    /\ exists w2,
         attempt (methods (aio_sync_module nat) ch) (Resume 0) w1
         = Some (Ok (Returned (PyObj 9)), w2).
Proof.
  eexists _, _. split; [reflexivity|].
  apply (proj1 (suspended_recv_woken_by_send nat) [] [Send (PyObj 9)] boot
           _ [Suspended 0; Returned PyNone] _ 0).
  - reflexivity.
  - reflexivity.
  - intros Hin. apply list_elem_of_singleton in Hin. discriminate.
Defined.

(** X2: making a channel and calling it leaves every object that the store
    already held as it was; in particular every channel that existed before
    keeps its event, flag and value. *)
Theorem other_objects_untouched (T : Type) {R : Repr T} :
  both_modules (fun M =>
    forall (ops : list (op T)) (w : world (obj M)),
    exists ch outs w1,
      session M ops w = Some (Ok (ch, outs), w1)
      /\ (forall (l : loc) o, heap w !! l = Some o -> heap w1 !! l = Some o)
      /\ (forall b t, peek M b w = Some t -> peek M b w1 = Some t)).
Proof.
  split; intros ops w.
  - exact (frame_gen _ _ _ _ aio_sync_refines ops w).
  - exact (frame_gen _ _ _ _ aiosync_refines ops w).
Qed.

Lemma other_objects_untouched_witness :
  exists ch outs w1,
    session (aio_sync_module nat) [Send (PyObj 5)]
      (World {[0 := aio_sync._SharedState.new]} 0)
    = Some (Ok (ch, outs), w1)
    /\ peek (aio_sync_module nat)
         (aio_sync.OneShot.mk (aio_sync.OneShotSender.mk 0)
            (aio_sync.OneShotReceiver.mk 0)) w1
       = Some (Event.new, false, PyNone).
Proof.
  destruct (proj1 (other_objects_untouched nat) [Send (PyObj 5)]
              (World {[0 := aio_sync._SharedState.new]} 0))
    as (ch & outs & w1 & E & _ & Hp).
  exists ch, outs, w1. split; [exact E|]. apply Hp. reflexivity.
Defined.

(** X3: two channels made one after the other do not mix: whatever calls
    are made on them, in whatever order, each [try_recv] returns the payload
    of the first [send] made before it on its own channel ([None] if there
    was none), and so does a [try_recv] on either channel at the end. *)
Theorem two_channels_do_not_mix (T : Type) {R : Repr T} :
  both_modules (fun M =>
    forall (ops : list (bool * op T)) (w : world (obj M)),
    exists a b outs w1,
      two_sessions M ops w = Some (Ok (a, b, outs), w1)
      /\ (forall (k : nat) (side : bool),
            ops !! k = Some (side, TryRecv) ->
            outs !! k
            = Some (Returned (default PyNone
                      (first_sent (calls_on side (take k ops))))))
      /\ call_try_recv (methods M a) w1
         = Some (Ok (default PyNone (first_sent (calls_on true ops))), w1)
      /\ call_try_recv (methods M b) w1
         = Some (Ok (default PyNone (first_sent (calls_on false ops))), w1)).
Proof.
  split; intros ops w.
  - exact (two_channels_gen _ _ _ _ aio_sync_refines ops w).
  - exact (two_channels_gen _ _ _ _ aiosync_refines ops w).
Qed.

Lemma two_channels_do_not_mix_witness :
  exists a b outs w1,
    two_sessions (aiosync_module nat)
      [(true, Send (PyObj 1)); (false, TryRecv);
       (false, Send (PyObj 2)); (true, TryRecv)] boot
    = Some (Ok (a, b, outs), w1)
    /\ outs !! 3 = Some (Returned (PyObj 1)).
Proof.
  destruct (proj2 (two_channels_do_not_mix nat)
              [(true, Send (PyObj 1)); (false, TryRecv);
               (false, Send (PyObj 2)); (true, TryRecv)] boot)
    as (a & b & outs & w1 & E & Hk & _).
  exists a, b, outs, w1. split; [exact E|]. exact (Hk 3 true eq_refl).
Defined.

(** X5: in any sequence of calls on a new channel, a [send] returns [None]
    when no [send] was called before it, and otherwise raises: the
    [ValueError] it builds or, if the [__repr__] of the payload sent first
    raises while the message is formatted, that exception. A [try_recv]
    never raises: it returns the payload sent first, or [None] when no
    [send] was called before it. *)
Theorem send_and_try_recv_outcomes (T : Type) {R : Repr T} :
  both_modules (fun M =>
    forall (ops : list (op T)) (w : world (obj M)),
    exists ch outs w1,
      session M ops w = Some (Ok (ch, outs), w1)
      /\ (forall (k : nat) v,
            ops !! k = Some (Send v) ->
            outs !! k
            = Some (match first_sent (take k ops) with
                    | None => Returned PyNone
                    | Some v0 => Raised (already_sent_error v0)
                    end))
      /\ (forall k : nat,
            ops !! k = Some TryRecv ->
            outs !! k
            = Some (Returned (default PyNone (first_sent (take k ops)))))).
Proof.
  split; intros ops w.
  - exact (outcomes_gen _ _ _ _ aio_sync_refines ops w).
  - exact (outcomes_gen _ _ _ _ aiosync_refines ops w).
Qed.

Lemma send_and_try_recv_outcomes_witness :
  exists ch outs w1,
    session (aio_sync_module nat)
      [Recv; Send (PyObj 4); Send (PyObj 5); TryRecv] boot
    = Some (Ok (ch, outs), w1)
    /\ outs !! 2 = Some (Raised ValueError)
    /\ outs !! 3 = Some (Returned (PyObj 4)).
Proof.
  destruct (proj1 (send_and_try_recv_outcomes nat)
              [Recv; Send (PyObj 4); Send (PyObj 5); TryRecv] boot)
    as (ch & outs & w1 & E & Hs & Ht).
  exists ch, outs, w1. split; [exact E|]. split.
  - exact (Hs 2 (PyObj 5) eq_refl).
  - exact (Ht 3 eq_refl).
Defined.

(** X6: [oneshot_channel] and [OneShot.channel] build the same pair in the
    same way: a sender and a receiver on one new cell, put at a location
    that held nothing, with the default fields; and what is sent through
    that sender is what the receiver's [try_recv] returns. *)
Theorem oneshot_channel_pair_connected (T : Type) {R : Repr T}
    (w : world (aio_sync._SharedState.t T)) :
  exists tx rx w1,
    aio_sync.oneshot_channel w = Some (Ok (tx, rx), w1)
    /\ aio_sync.OneShot.channel w = Some (Ok (aio_sync.OneShot.mk tx rx), w1)
    /\ aio_sync.OneShotSender._state tx = aio_sync.OneShotReceiver._state rx
    /\ heap w !! aio_sync.OneShotReceiver._state rx = None
    /\ heap w1 !! aio_sync.OneShotReceiver._state rx
       = Some aio_sync._SharedState.new
    /\ forall v : pyval T,
       exists w2,
         aio_sync.OneShotSender.send tx v w1 = Some (Ok tt, w2)
         /\ aio_sync.OneShotReceiver.try_recv rx w2 = Some (Ok v, w2).
Proof.
  destruct (alloc_fresh (aio_sync._SharedState.new (T:=T)) w) as (l & E & Hl).
  set (ch := aio_sync.OneShot.mk (aio_sync.OneShotSender.mk l)
               (aio_sync.OneShotReceiver.mk (T:=T) l)).
  exists (aio_sync.OneShotSender.mk l), (aio_sync.OneShotReceiver.mk l),
    (put l aio_sync._SharedState.new w).
  assert (Ec : aio_sync.oneshot_channel w
               = Some (Ok (aio_sync.OneShotSender.mk (T:=T) l,
                           aio_sync.OneShotReceiver.mk (T:=T) l),
                       put l aio_sync._SharedState.new w)).
  { unfold aio_sync.oneshot_channel. by rewrite (bind_ok _ _ _ _ _ E). }
  split; [exact Ec|]. split.
  { unfold aio_sync.OneShot.channel. by rewrite (bind_ok _ _ _ _ _ Ec). }
  split; [done|]. split; [exact Hl|]. split; [apply heap_put|].
  intros v.
  destruct (send_unsent _ _ _ _ aio_sync_refines ch v
              (put l aio_sync._SharedState.new w) aio_sync._SharedState.new)
    as (st' & Es & Hok); [done|apply heap_put|apply cell_ok_new|].
  eexists. split; [exact Es|].
  by apply (try_recv_in_order _ _ _ _ aio_sync_refines ch _ st' (Some v));
    [apply heap_put|].
Qed.
